(** * Session / profile synchronisation of the attendance application

    A shallow embedding of the authentication layer:

    - [Hooks]    : the provider of [hooks/useAuth] (src/unnamed/part_000),
                   state [{user, profile, loading, error}];
    - [Legacy]   : the provider of src/context/AuthContext.tsx, which probes
                   the tables one after the other;
    - [Context2] : the provider of src/unnamed/part_004, a later revision of
                   the same context that reads the role claim;
    - [Gate]     : [ProtectedRoute] (src/unnamed/part_001).

    Asynchronous functions are embedded as finite interaction trees
    ([Prog]): a tree node is a React state update, a read of the effect's
    [mounted] flag, or an [await] on a call of the hosted service.  A tree is
    either run to completion against an oracle for the service ([run]), or
    scheduled step by step, one resolved promise at a time ([Sync]), which is
    where teardown can fall between the issue of a call and its resolution.

    [console.debug] / [console.log] / [console.error] calls are not
    modelled; everything else in the embedded functions is. *)

From Stdlib Require Import String List Bool ZArith.
Import ListNotations.
Open Scope string_scope.

(** ** JavaScript values *)

Inductive JsVal : Type :=
| JUndefined
| JNull
| JBool (b : bool)
| JNum (n : Z)
| JStr (s : string).

(** [!!v] *)
Definition truthy (v : JsVal) : bool :=
  match v with
  | JUndefined | JNull => false
  | JBool b => b
  | JNum n => negb (n =? 0)%Z
  | JStr s => negb (s =? "")
  end.

(** [v === 'lit'] for a string literal. *)
Definition is_str (v : JsVal) (lit : string) : bool :=
  match v with
  | JStr s => s =? lit
  | _ => false
  end.

(** [a || b] *)
Definition js_or (a b : JsVal) : JsVal := if truthy a then a else b.

(** A plain object, as a row of a table or an insert payload: the first
    binding of a key is the live one. *)
Definition JsObj := list (string * JsVal).

Fixpoint get (o : JsObj) (k : string) : JsVal :=
  match o with
  | [] => JUndefined
  | (k', v) :: o' => if k' =? k then v else get o' k
  end.

(** [{ ...o, k: v }] *)
Definition spread_with (o : JsObj) (k : string) (v : JsVal) : JsObj :=
  (k, v) :: o.

(** [!!s] for a [string | null] state cell. *)
Definition truthy_str (s : option string) : bool :=
  match s with
  | Some m => negb (m =? "")
  | None => false
  end.

Definition is_some {A} (o : option A) : bool :=
  match o with Some _ => true | None => false end.

(** ** The hosted service *)

(** Errors: a thrown [Error], a [PostgrestError], an [AuthError]. *)
Record Err := { code : JsVal; message : string }.

(** [new Error(msg)] *)
Definition new_Error (msg : string) : Err := {| code := JUndefined; message := msg |}.

Record Metadata := { md_full_name : JsVal; md_role : JsVal }.

(** The identity provider's user object. *)
Record User := { uid : string; user_metadata : option Metadata }.

(** [authUser.user_metadata?.role] *)
Definition role_claim (u : User) : JsVal :=
  match user_metadata u with
  | Some m => md_role m
  | None => JUndefined
  end.

Record Session := { s_user : option User }.

(** [session?.user] *)
Definition session_user (s : option Session) : option User :=
  match s with
  | Some s' => s_user s'
  | None => None
  end.

(** [{ data: { session }, error }] *)
Record SessionResp := { sr_session : option Session; sr_error : option Err }.
(** [{ data: { user, session }, error }] *)
Record AuthResp := { ar_user : option User; ar_session : option Session; ar_error : option Err }.
(** [{ data, error }] of [.select('*').eq('id', uid).single()] *)
Record QueryResp := { q_data : option JsObj; q_error : option Err }.
(** [{ error }] of [.insert(row)] and of [auth.signOut()] *)
Record WriteResp := { w_error : option Err }.

(** What the [data] of a sign-up or sign-in response holds. *)
Record AuthData := { d_user : option User; d_session : option Session }.

Definition data_of (r : AuthResp) : AuthData :=
  {| d_user := ar_user r; d_session := ar_session r |}.

(** The calls the client awaits, indexed by the type of their answer. *)
Inductive Call : Type -> Type :=
| GetSession : Call SessionResp
| Select (table : string) (id : string) : Call QueryResp
| Insert (table : string) (row : JsObj) : Call WriteResp
| AuthSignUp (email password : string) (data : option Metadata) : Call AuthResp
| SignInWithPassword (email password : string) : Call AuthResp
| AuthSignOut : Call WriteResp.

(** A settled promise. *)
Inductive Settled (R : Type) : Type :=
| Fulfilled (r : R)
| Rejected (e : Err).
Arguments Fulfilled {R} r.
Arguments Rejected {R} e.

(** The service as the client sees it: an answer for every call. *)
Record Remote := {
  getSession : Settled SessionResp;
  select : string -> string -> Settled QueryResp;
  insert : string -> JsObj -> Settled WriteResp;
  auth_signUp : string -> string -> option Metadata -> Settled AuthResp;
  signInWithPassword : string -> string -> Settled AuthResp;
  auth_signOut : Settled WriteResp
}.

Definition answer (remote : Remote) {R} (c : Call R) : Settled R :=
  match c in Call R return Settled R with
  | GetSession => getSession remote
  | Select t i => select remote t i
  | Insert t row => insert remote t row
  | AuthSignUp e p d => auth_signUp remote e p d
  | SignInWithPassword e p => signInWithPassword remote e p
  | AuthSignOut => auth_signOut remote
  end.

(** A call as it appears in the request log. *)
Inductive Request : Type :=
| Req {R} (c : Call R).

(** The table a request reads or writes, if any. *)
Definition table_of_request (r : Request) : option string :=
  match r with
  | Req (Select t _) => Some t
  | Req (Insert t _) => Some t
  | Req _ => None
  end.

Definition tables_of (l : list Request) : list string :=
  flat_map (fun r => match table_of_request r with Some t => [t] | None => [] end) l.

(** How a call of a function ends. *)
Inductive Outcome (A : Type) : Type :=
| Returned (a : A)
| Thrown (e : Err).
Arguments Returned {A} a.
Arguments Thrown {A} e.

(** ** Asynchronous programs *)

Section Programs.

Variable S : Type.   (* the React state of the provider *)

Inductive Prog (A : Type) : Type :=
| Ret (a : A)
| Throw (e : Err)
| Update (f : S -> S) (k : Prog A)
| IsMounted (k : bool -> Prog A)
| Await {R} (c : Call R) (k : Settled R -> Prog A).

Arguments Ret {A} a.
Arguments Throw {A} e.
Arguments Update {A} f k.
Arguments IsMounted {A} k.
Arguments Await {A R} c k.

Fixpoint bind {A B} (p : Prog A) (f : A -> Prog B) : Prog B :=
  match p with
  | Ret a => f a
  | Throw e => Throw e
  | Update g k => Update g (bind k f)
  | IsMounted k => IsMounted (fun m => bind (k m) f)
  | Await c k => Await c (fun r => bind (k r) f)
  end.

(** [try { p } catch (err) { h err }] *)
Fixpoint try_catch {A} (p : Prog A) (h : Err -> Prog A) : Prog A :=
  match p with
  | Ret a => Ret a
  | Throw e => h e
  | Update g k => Update g (try_catch k h)
  | IsMounted k => IsMounted (fun m => try_catch (k m) h)
  | Await c k => Await c (fun r => try_catch (k r) h)
  end.

(** [try { p } finally { fin }] *)
Fixpoint try_finally {A} (p : Prog A) (fin : Prog unit) : Prog A :=
  match p with
  | Ret a => bind fin (fun _ => Ret a)
  | Throw e => bind fin (fun _ => Throw e)
  | Update g k => Update g (try_finally k fin)
  | IsMounted k => IsMounted (fun m => try_finally (k m) fin)
  | Await c k => Await c (fun r => try_finally (k r) fin)
  end.

(** [await c]: a rejected promise throws at the await. *)
Definition await {R} (c : Call R) : Prog R :=
  Await c (fun r => match r with Fulfilled a => Ret a | Rejected e => Throw e end).

Definition set (f : S -> S) : Prog unit := Update f (Ret tt).

Definition mounted_flag : Prog bool := IsMounted (fun m => Ret m).

(** What a program runs in: the state cells, the [mounted] flag of the
    effect closure, and the requests issued so far (oldest first). *)
Record World := { state : S; mounted : bool; log : list Request }.

(** A state update, and the issue of a request. *)
Definition update (f : S -> S) (w : World) : World :=
  {| state := f (state w); mounted := mounted w; log := log w |}.

Definition issue {R} (c : Call R) (w : World) : World :=
  {| state := state w; mounted := mounted w; log := log w ++ [Req c] |}.

(** Run a program to completion, every call answered by [remote]. *)
Fixpoint run {A} (remote : Remote) (p : Prog A) (w : World) : Outcome A * World :=
  match p with
  | Ret a => (Returned a, w)
  | Throw e => (Thrown e, w)
  | Update f k => run remote k (update f w)
  | IsMounted k => run remote (k (mounted w)) w
  | Await c k => run remote (k (answer remote c)) (issue c w)
  end.

(** Run the synchronous prefix of a program: up to its end, or up to the
    next await, whose request is logged when it is issued. *)
Fixpoint advance (p : Prog unit) (w : World) : World * option (Prog unit) :=
  match p with
  | Ret _ => (w, None)
  | Throw _ => (w, None)
  | Update f k => advance k (update f w)
  | IsMounted k => advance (k (mounted w)) w
  | Await c _ => (issue c w, Some p)
  end.

(** The continuation of a suspended program once its promise settles. *)
Definition resume (remote : Remote) (p : Prog unit) : Prog unit :=
  match p with
  | Await c k => k (answer remote c)
  | _ => p
  end.

End Programs.

Arguments Ret {S A} a.
Arguments Throw {S A} e.
Arguments Update {S A} f k.
Arguments IsMounted {S A} k.
Arguments Await {S A R} c k.
Arguments bind {S A B} p f.
Arguments try_catch {S A} p h.
Arguments try_finally {S A} p fin.
Arguments await {S R} c.
Arguments set {S} f.
Arguments mounted_flag {S}.
Arguments state {S} w.
Arguments mounted {S} w.
Arguments log {S} w.
Arguments Build_World {S} _ _ _.
Arguments update {S} f w.
Arguments issue {S R} c w.
Arguments run {S A} remote p w.
Arguments advance {S} p w.
Arguments resume {S} remote p.

Declare Scope prog_scope.
Delimit Scope prog_scope with prog.
Notation "x <- p ;; k" := (bind p (fun x => k))
  (at level 61, p at next level, right associativity) : prog_scope.
Notation "p ;; k" := (bind p (fun _ => k))
  (at level 61, right associativity) : prog_scope.
Open Scope prog_scope.

(** [useContext(ctx)] for a context created with [createContext(undefined)]:
    the value of the nearest enclosing provider (the list holds the enclosing
    providers' values, innermost first), or the default, [undefined]. *)
Definition useContext {T} (enclosing : list T) : option T := hd_error enclosing.

(** ** The role-to-table mapping, as the interface documents it *)

Inductive Role : Type := Faculty | Student | Parent.

Definition role_name (r : Role) : string :=
  match r with
  | Faculty => "faculty"
  | Student => "student"
  | Parent => "parent"
  end.

Definition role_table (r : Role) : string :=
  match r with
  | Faculty => "faculty"
  | Student => "students"
  | Parent => "parents"
  end.

(** The distinguished not-found message. *)
Definition NO_PROFILE : string := "No profile found. Please contact admin.".

(** * hooks/useAuth (src/unnamed/part_000) *)

Module Hooks.

Record UserProfile := {
  id : JsVal;
  role : JsVal;
  name : JsVal;
  email : JsVal;
  roll_no : JsVal;
  standard : JsVal;
  class : JsVal;
  linked_student_roll : JsVal
}.

Record SignUpData := {
  sd_role : string;
  sd_full_name : string;
  sd_email : string;
  sd_password : string
}.

(** The four [useState] cells. *)
Record AuthState := {
  user : option User;
  profile : option UserProfile;
  loading : bool;
  error : option string
}.

(** [useState] initial values. *)
Definition initial : AuthState :=
  {| user := None; profile := None; loading := true; error := None |}.

Definition setUser (u : option User) : Prog AuthState unit :=
  set (fun s => {| user := u; profile := profile s; loading := loading s; error := error s |}).
Definition setProfile (p : option UserProfile) : Prog AuthState unit :=
  set (fun s => {| user := user s; profile := p; loading := loading s; error := error s |}).
Definition setLoading (b : bool) : Prog AuthState unit :=
  set (fun s => {| user := user s; profile := profile s; loading := b; error := error s |}).
Definition setError (e : option string) : Prog AuthState unit :=
  set (fun s => {| user := user s; profile := profile s; loading := loading s; error := e |}).

(** The [switch (role)] of [fetchUserProfile]; [None] is its [default]. *)
Definition tableName (role : JsVal) : option string :=
  if is_str role "faculty" then Some "faculty"
  else if is_str role "student" then Some "students"
  else if is_str role "parent" then Some "parents"
  else None.

Definition userProfile_of (role : JsVal) (data : JsObj) : UserProfile :=
  {| id := get data "id";
     role := role;
     name := js_or (get data "name") (get data "full_name");
     email := get data "email";
     roll_no := get data "roll_no";
     standard := get data "standard";
     class := get data "class";
     linked_student_roll := get data "linked_student_roll" |}.

Definition fetchUserProfile (authUser : User) : Prog AuthState unit :=
  try_catch
    (let role := role_claim authUser in
     if negb (truthy role) then
       setError (Some "No role found in user profile")
     else
       match tableName role with
       | None => setError (Some "Invalid user role")
       | Some tableName =>
           r <- await (Select tableName (uid authUser)) ;;
           match q_error r with
           | Some profileError =>
               if is_str (code profileError) "PGRST116" then
                 setError (Some NO_PROFILE) ;;
                 setProfile None
               else Throw profileError
           | None =>
               match q_data r with
               | Some data =>
                   setProfile (Some (userProfile_of role data)) ;;
                   setError None
               | None => Ret tt
               end
           end
       end)
    (fun err =>
       setError (Some (message err)) ;;
       setProfile None).

(** The [switch (userData.role)] of [signUp]: it has no [default], so the
    name stays [''] for any other role. *)
Definition signUp_tableName (role : string) : string :=
  if role =? "faculty" then "faculty"
  else if role =? "student" then "students"
  else if role =? "parent" then "parents"
  else "".

Definition insertData (now : string) (u : User) (userData : SignUpData) : JsObj :=
  [ ("id", JStr (uid u));
    ("name", JStr (sd_full_name userData));
    ("full_name", JStr (sd_full_name userData));
    ("email", JStr (sd_email userData));
    ("created_at", JStr now) ].

Definition signUp_metadata (userData : SignUpData) : Metadata :=
  {| md_full_name := JStr (sd_full_name userData);
     md_role := JStr (sd_role userData) |}.

(** [now] is the value of [new Date().toISOString()]. *)
Definition signUp (now : string) (email password : string) (userData : SignUpData)
  : Prog AuthState AuthData :=
  setLoading true ;;
  setError None ;;
  try_finally
    (try_catch
       (r <- await (AuthSignUp email password (Some (signUp_metadata userData))) ;;
        match ar_error r with
        | Some signUpError => Throw signUpError
        | None =>
            match ar_user r with
            | Some u =>
                w <- await (Insert (signUp_tableName (sd_role userData))
                                   (insertData now u userData)) ;;
                match w_error w with
                | Some insertError => Throw insertError
                | None => Ret tt
                end
            | None => Ret tt
            end ;;
            Ret (data_of r)
        end)
       (fun err =>
          setError (Some (message err)) ;;
          Throw err))
    (setLoading false).

Definition signIn (email password : string) : Prog AuthState AuthData :=
  setLoading true ;;
  setError None ;;
  try_finally
    (try_catch
       (r <- await (SignInWithPassword email password) ;;
        match ar_error r with
        | Some signInError => Throw signInError
        | None => Ret (data_of r)
        end)
       (fun err =>
          setError (Some (message err)) ;;
          Throw err))
    (setLoading false).

Definition signOut : Prog AuthState unit :=
  setLoading true ;;
  try_finally
    (try_catch
       (r <- await AuthSignOut ;;
        match w_error r with
        | Some signOutError => Throw signOutError
        | None =>
            setUser None ;;
            setProfile None ;;
            setError None
        end)
       (fun err => setError (Some (message err))))
    (setLoading false).

(** The context value built on every render. *)
Module AuthContextType.
Record t := {
  user : option User;
  profile : option UserProfile;
  loading : bool;
  error : option string;
  signUp : string -> string -> string -> SignUpData -> Prog AuthState AuthData;
  signIn : string -> string -> Prog AuthState AuthData;
  signOut : Prog AuthState unit;
  isAuthenticated : bool
}.
End AuthContextType.

Definition value (st : AuthState) : AuthContextType.t :=
  {| AuthContextType.user := user st;
     AuthContextType.profile := profile st;
     AuthContextType.loading := loading st;
     AuthContextType.error := error st;
     AuthContextType.signUp := signUp;
     AuthContextType.signIn := signIn;
     AuthContextType.signOut := signOut;
     AuthContextType.isAuthenticated := is_some (user st) && is_some (profile st) |}.

Definition useAuth (enclosing : list AuthContextType.t) : Outcome AuthContextType.t :=
  match useContext enclosing with
  | None => Thrown (new_Error "useAuth must be used within an AuthProvider")
  | Some context => Returned context
  end.

(** *** The effect of [AuthProvider] *)

Definition initializeAuth : Prog AuthState unit :=
  try_catch
    (r <- await GetSession ;;
     match sr_error r with
     | Some sessionError => Throw sessionError
     | None =>
         m <- mounted_flag ;;
         if m then
           match session_user (sr_session r) with
           | Some u =>
               setUser (Some u) ;;
               fetchUserProfile u
           | None =>
               setUser None ;;
               setProfile None
           end ;;
           setLoading false
         else Ret tt
     end)
    (fun err =>
       m <- mounted_flag ;;
       if m then
         setError (Some (message err)) ;;
         setLoading false
       else Ret tt).

(** The callback handed to [onAuthStateChange]. *)
Definition onAuthStateChange (event : string) (session : option Session)
  : Prog AuthState unit :=
  m <- mounted_flag ;;
  if negb m then Ret tt
  else
    match (event =? "SIGNED_IN"), session_user session with
    | true, Some u =>
        setUser (Some u) ;;
        setError None ;;
        fetchUserProfile u
    | _, _ =>
        if event =? "SIGNED_OUT" then
          setUser None ;;
          setProfile None ;;
          setError None
        else Ret tt
    end ;;
    setLoading false.

End Hooks.

(** * The provider's effect, scheduled (src/unnamed/part_000, useEffect) *)

Module Sync.
Import Hooks.

(** The mounted provider: its state and [mounted] flag, whether the
    subscription to the event stream is live, and the asynchronous calls in
    flight, each suspended at its [await].

    The code declares [mounted] anew in every run of the effect; the model
    keeps one flag.  For a provider whose effect runs once the two agree.
    After a second [Mount] the model lets what the torn-down run left in
    flight continue, where the code would drop it: the model then runs a
    superset of what the code runs. *)
Record Sys := {
  world : World AuthState;
  subscribed : bool;
  inflight : list (Prog AuthState unit)
}.

Inductive Action : Type :=
| Mount                                            (* the effect runs *)
| Emit (event : string) (session : option Session) (* the provider pushes an event *)
| Settle (i : nat)                                 (* the i-th call in flight settles *)
| Teardown.                                        (* the effect's cleanup runs *)

Definition before_mount : Sys :=
  {| world := {| state := initial; mounted := false; log := [] |};
     subscribed := false;
     inflight := [] |}.

(** Start (or continue) an asynchronous function: run it up to its next
    [await] and park it there. *)
Definition spawn (p : Prog AuthState unit) (s : Sys) (sub : bool)
                 (rest : list (Prog AuthState unit)) : Sys :=
  let (w, pending) := advance p (world s) in
  {| world := w;
     subscribed := sub;
     inflight := rest ++ match pending with Some k => [k] | None => [] end |}.

Fixpoint remove_nth {A} (i : nat) (l : list A) : list A :=
  match l, i with
  | [], _ => []
  | _ :: l', O => l'
  | x :: l', Datatypes.S i' => x :: remove_nth i' l'
  end.

Definition step (remote : Remote) (a : Action) (s : Sys) : Sys :=
  match a with
  | Mount =>
      (* let mounted = true; initializeAuth(); ...onAuthStateChange(cb) *)
      spawn initializeAuth
            {| world := {| state := state (world s); mounted := true; log := log (world s) |};
               subscribed := subscribed s;
               inflight := inflight s |}
            true (inflight s)
  | Emit event session =>
      if subscribed s
      then spawn (onAuthStateChange event session) s (subscribed s) (inflight s)
      else s
  | Settle i =>
      match nth_error (inflight s) i with
      | Some p => spawn (resume remote p) s (subscribed s) (remove_nth i (inflight s))
      | None => s
      end
  | Teardown =>
      (* mounted = false; subscription.unsubscribe() *)
      {| world := {| state := state (world s); mounted := false; log := log (world s) |};
         subscribed := false;
         inflight := inflight s |}
  end.

Definition exec (remote : Remote) (trace : list Action) (s : Sys) : Sys :=
  fold_left (fun s a => step remote a s) trace s.

End Sync.

(** * ProtectedRoute (src/unnamed/part_001) *)

Module Gate.
Import Hooks.

(** The branch [ProtectedRoute] takes. *)
Inductive GateState : Type :=
| loading_state
| error_without_user
| unauthenticated
| profile_not_found
| authenticated.

(** What is rendered. *)
Inductive View : Type :=
| LoadingSpinner
| AuthForm
| ProfileNotFound
| Children.

Definition gate_state (ctx : AuthContextType.t) : GateState :=
  if AuthContextType.loading ctx then loading_state
  else if truthy_str (AuthContextType.error ctx)
          && negb (is_some (AuthContextType.user ctx)) then error_without_user
  else if negb (AuthContextType.isAuthenticated ctx) then unauthenticated
  else if match AuthContextType.error ctx with
          | Some e => e =? NO_PROFILE
          | None => false
          end then profile_not_found
  else authenticated.

Definition rendered (g : GateState) : View :=
  match g with
  | loading_state => LoadingSpinner
  | error_without_user => AuthForm
  | unauthenticated => AuthForm
  | profile_not_found => ProfileNotFound
  | authenticated => Children
  end.

(** The component: [useAuth()] first, then the branch. *)
Definition ProtectedRoute (enclosing : list AuthContextType.t) : Outcome View :=
  match useAuth enclosing with
  | Returned ctx => Returned (rendered (gate_state ctx))
  | Thrown e => Thrown e
  end.

(** The priority order as the design states it, over what is rendered;
    [is_set] is the reading of "error is set". *)
Definition gate_spec (is_set : option string -> bool) (ctx : AuthContextType.t) : View :=
  if AuthContextType.loading ctx then LoadingSpinner
  else if is_set (AuthContextType.error ctx)
          && negb (is_some (AuthContextType.user ctx)) then AuthForm
  else if negb (AuthContextType.isAuthenticated ctx) then AuthForm
  else if match AuthContextType.error ctx with
          | Some e => e =? NO_PROFILE
          | None => false
          end then ProfileNotFound
  else Children.

End Gate.

(** * context/AuthContext (src/context/AuthContext.tsx) *)

Module Legacy.

Inductive Toast : Type :=
| toast_success (msg : string)
| toast_error (msg : string).

(** [user] holds the row that was found; [toasts] is what the toaster was
    asked to show, oldest first. *)
Record AuthState := {
  user : option JsObj;
  loading : bool;
  toasts : list Toast
}.

(** [useState] initial values; no toast shown yet. *)
Definition initial : AuthState :=
  {| user := None; loading := true; toasts := [] |}.

Definition setUser (u : option JsObj) : Prog AuthState unit :=
  set (fun s => {| user := u; loading := loading s; toasts := toasts s |}).
Definition setLoading (b : bool) : Prog AuthState unit :=
  set (fun s => {| user := user s; loading := b; toasts := toasts s |}).
Definition toast (t : Toast) : Prog AuthState unit :=
  set (fun s => {| user := user s; loading := loading s; toasts := toasts s ++ [t] |}).

(** [msg || fallback] *)
Definition message_or (msg fallback : string) : string :=
  if msg =? "" then fallback else msg.

Definition fetchUserProfile (userId : string) : Prog AuthState unit :=
  try_catch
    (r1 <- await (Select "faculty" userId) ;;
     match q_data r1 with
     | Some faculty => setUser (Some (spread_with faculty "role" (JStr "faculty")))
     | None =>
         r2 <- await (Select "users" userId) ;;
         match q_data r2 with
         | Some userData => setUser (Some userData)
         | None =>
             r3 <- await (Select "parents" userId) ;;
             match q_data r3 with
             | Some parent => setUser (Some (spread_with parent "role" (JStr "parent")))
             | None => Ret tt
             end
         end
     end)
    (fun _ => Ret tt).

(** The effect: the session check on mount ... *)
Definition checkUser : Prog AuthState unit :=
  try_finally
    (try_catch
       (r <- await GetSession ;;
        match session_user (sr_session r) with
        | Some u => fetchUserProfile (uid u)
        | None => Ret tt
        end)
       (fun _ => Ret tt))
    (setLoading false).

(** ... and the callback handed to [onAuthStateChange]. *)
Definition onAuthStateChange (event : string) (session : option Session)
  : Prog AuthState unit :=
  match (event =? "SIGNED_IN"), session_user session with
  | true, Some u => fetchUserProfile (uid u)
  | _, _ => if event =? "SIGNED_OUT" then setUser None else Ret tt
  end.

Definition logout : Prog AuthState unit :=
  try_catch
    (r <- await AuthSignOut ;;
     match w_error r with
     | Some error => Throw error
     | None =>
         setUser None ;;
         toast (toast_success "Logged out successfully")
     end)
    (fun error => toast (toast_error (message_or (message error) "Logout failed"))).

Definition login (email password : string) (role : string) : Prog AuthState unit :=
  try_catch
    (r <- await (SignInWithPassword email password) ;;
     match ar_error r with
     | Some error => Throw error
     | None => toast (toast_success "Login successful!")
     end)
    (fun error =>
       toast (toast_error (message_or (message error) "Login failed")) ;;
       Throw error).

Record SignupData := {
  role : string;
  name : string;
  email : option string;
  password : string;
  roll_no : option string;
  standard : option string;
  class : option string;
  linked_student_roll : option string
}.

(** An optional member read where a value is expected ([x!]). *)
Definition member (o : option string) : JsVal :=
  match o with
  | Some s => JStr s
  | None => JUndefined
  end.

(** [signupData.email || `${signupData.roll_no || Date.now()}@temp.com`];
    [now_ms] is the decimal rendering of [Date.now()]. *)
Definition signup_email (now_ms : string) (signupData : SignupData) : string :=
  if truthy_str (email signupData) then
    match email signupData with Some e => e | None => "" end
  else
    (if truthy_str (roll_no signupData)
     then match roll_no signupData with Some n => n | None => "" end
     else now_ms) ++ "@temp.com".

(** The results of the inserts are not inspected; only a rejection throws. *)
Definition signup (now_ms : string) (signupData : SignupData) : Prog AuthState unit :=
  try_catch
    (r <- await (AuthSignUp (signup_email now_ms signupData) (password signupData) None) ;;
     match ar_error r with
     | Some error => Throw error
     | None =>
         match ar_user r with
         | Some u =>
             if role signupData =? "faculty" then
               _ <- await (Insert "faculty"
                      [ ("id", JStr (uid u));
                        ("name", JStr (name signupData));
                        ("email", member (email signupData)) ]) ;;
               Ret tt
             else if role signupData =? "student" then
               _ <- await (Insert "students"
                      [ ("id", JStr (uid u));
                        ("roll_no", member (roll_no signupData));
                        ("name", JStr (name signupData));
                        ("standard", member (standard signupData));
                        ("class", member (class signupData)) ]) ;;
               _ <- await (Insert "users"
                      [ ("id", JStr (uid u));
                        ("role", JStr "student");
                        ("name", JStr (name signupData));
                        ("roll_no", member (roll_no signupData));
                        ("class", member (class signupData));
                        ("password_hash", JStr "hashed") ]) ;;
               Ret tt
             else if role signupData =? "parent" then
               _ <- await (Insert "parents"
                      [ ("id", JStr (uid u));
                        ("name", JStr (name signupData));
                        ("linked_student_roll", member (linked_student_roll signupData));
                        ("password_hash", JStr "hashed") ]) ;;
               _ <- await (Insert "users"
                      [ ("id", JStr (uid u));
                        ("role", JStr "parent");
                        ("name", JStr (name signupData));
                        ("password_hash", JStr "hashed") ]) ;;
               Ret tt
             else Ret tt
         | None => Ret tt
         end ;;
         toast (toast_success "Account created successfully!")
     end)
    (fun error =>
       toast (toast_error (message_or (message error) "Signup failed")) ;;
       Throw error).

Module AuthContextType.
Record t := {
  user : option JsObj;
  loading : bool;
  login : string -> string -> string -> Prog AuthState unit;
  signup : string -> SignupData -> Prog AuthState unit;
  logout : Prog AuthState unit
}.
End AuthContextType.

Definition value (st : AuthState) : AuthContextType.t :=
  {| AuthContextType.user := user st;
     AuthContextType.loading := loading st;
     AuthContextType.login := login;
     AuthContextType.signup := signup;
     AuthContextType.logout := logout |}.

Definition useAuth (enclosing : list AuthContextType.t) : Outcome AuthContextType.t :=
  match useContext enclosing with
  | None => Thrown (new_Error "useAuth must be used within an AuthProvider")
  | Some context => Returned context
  end.

End Legacy.

(** * context/AuthContext, role-aware revision (src/unnamed/part_004) *)

Module Context2.

Record SignupData := {
  role : string;
  full_name : string;
  email : string;
  password : string
}.

Record AuthState := {
  user : option JsObj;
  loading : bool
}.

(** [useState] initial values. *)
Definition initial : AuthState :=
  {| user := None; loading := true |}.

Definition setUser (u : option JsObj) : Prog AuthState unit :=
  set (fun s => {| user := u; loading := loading s |}).
Definition setLoading (b : bool) : Prog AuthState unit :=
  set (fun s => {| user := user s; loading := b |}).

(** One arm of the role cascade of [fetchUserProfile]. *)
Definition query_as (table role : string) (userId : string)
  : Prog AuthState (option JsObj) :=
  r <- await (Select table userId) ;;
  Ret (match q_data r with
       | Some data => Some (spread_with data "role" (JStr role))
       | None => None
       end).

Definition fetchUserProfile (userId : string) (role : JsVal) : Prog AuthState unit :=
  try_catch
    (userData <-
       (if is_str role "faculty" then query_as "faculty" "faculty" userId
        else if is_str role "student" then query_as "students" "student" userId
        else if is_str role "parent" then query_as "parents" "parent" userId
        else Ret None) ;;
     match userData with
     | Some d => setUser (Some d)
     | None => Ret tt
     end)
    (fun _ => Ret tt).

(** The effect: the session check on mount ... *)
Definition checkUser : Prog AuthState unit :=
  try_finally
    (try_catch
       (r <- await GetSession ;;
        match session_user (sr_session r) with
        | Some u => fetchUserProfile (uid u) (role_claim u)
        | None => Ret tt
        end)
       (fun _ => Ret tt))
    (setLoading false).

(** ... and the callback handed to [onAuthStateChange]. *)
Definition onAuthStateChange (event : string) (session : option Session)
  : Prog AuthState unit :=
  match (event =? "SIGNED_IN"), session_user session with
  | true, Some u => fetchUserProfile (uid u) (role_claim u)
  | _, _ => if event =? "SIGNED_OUT" then setUser None else Ret tt
  end.

Definition login (email password : string) (role : string) : Prog AuthState unit :=
  try_catch
    (r <- await (SignInWithPassword email password) ;;
     match ar_error r with
     | Some error => Throw error
     | None => Ret tt
     end)
    (fun error => Throw error).

Definition userData_of (now : string) (u : User) (signupData : SignupData) : JsObj :=
  [ ("id", JStr (uid u));
    ("full_name", JStr (full_name signupData));
    ("email", JStr (email signupData));
    ("created_at", JStr now) ].

(** One arm of the role cascade of [signup]: the insert's [error]. *)
Definition insert_into (table : string) (row : JsObj) : Prog AuthState (option Err) :=
  w <- await (Insert table row) ;;
  Ret (w_error w).

(** [now] is the value of [new Date().toISOString()]. *)
Definition signup (now : string) (signupData : SignupData) : Prog AuthState unit :=
  try_catch
    (r <- await (AuthSignUp (email signupData) (password signupData)
                   (Some {| md_full_name := JStr (full_name signupData);
                            md_role := JStr (role signupData) |})) ;;
     match ar_error r with
     | Some error => Throw error
     | None =>
         match ar_user r with
         | Some u =>
             let userData := userData_of now u signupData in
             insertError <-
               (if role signupData =? "faculty" then insert_into "faculty" userData
                else if role signupData =? "student" then insert_into "students" userData
                else if role signupData =? "parent" then insert_into "parents" userData
                else Ret None) ;;
             match insertError with
             | Some e => Throw e
             | None => Ret tt
             end
         | None => Ret tt
         end
     end)
    (fun error => Throw error).

Definition logout : Prog AuthState unit :=
  try_catch
    (r <- await AuthSignOut ;;
     match w_error r with
     | Some error => Throw error
     | None => setUser None
     end)
    (fun _ => Ret tt).

Module AuthContextType.
Record t := {
  user : option JsObj;
  loading : bool;
  login : string -> string -> string -> Prog AuthState unit;
  signup : string -> SignupData -> Prog AuthState unit;
  logout : Prog AuthState unit
}.
End AuthContextType.

Definition value (st : AuthState) : AuthContextType.t :=
  {| AuthContextType.user := user st;
     AuthContextType.loading := loading st;
     AuthContextType.login := login;
     AuthContextType.signup := signup;
     AuthContextType.logout := logout |}.

Definition useAuth (enclosing : list AuthContextType.t) : Outcome AuthContextType.t :=
  match useContext enclosing with
  | None => Thrown (new_Error "useAuth must be used within an AuthProvider")
  | Some context => Returned context
  end.

End Context2.

(** * Vocabulary of the properties *)

(** How a profile query ends, as [Hooks.fetchUserProfile] tells the cases
    apart.  PostgREST answers [.single()] on zero rows with an error whose
    code is PGRST116: that is the not-found case. *)
Inductive QueryOutcome : Type :=
| Found (data : JsObj)
| Empty
| NotFound
| Failed (e : Err).

Definition classify (a : Settled QueryResp) : QueryOutcome :=
  match a with
  | Rejected e => Failed e
  | Fulfilled r =>
      match q_error r, q_data r with
      | Some pe, _ => if is_str (code pe) "PGRST116" then NotFound else Failed pe
      | None, Some d => Found d
      | None, None => Empty
      end
  end.

(** The state a profile query leaves behind, as the design states it: a row
    replaces the profile and clears the error; not-found sets the
    distinguished message and clears the profile; any other failure stores
    the error's message and clears the profile. *)
Definition after_query (role : JsVal) (q : QueryOutcome) (s : Hooks.AuthState)
  : Hooks.AuthState :=
  match q with
  | Found data =>
      {| Hooks.user := Hooks.user s;
         Hooks.profile := Some (Hooks.userProfile_of role data);
         Hooks.loading := Hooks.loading s;
         Hooks.error := None |}
  | Empty => s
  | NotFound =>
      {| Hooks.user := Hooks.user s;
         Hooks.profile := None;
         Hooks.loading := Hooks.loading s;
         Hooks.error := Some NO_PROFILE |}
  | Failed e =>
      {| Hooks.user := Hooks.user s;
         Hooks.profile := None;
         Hooks.loading := Hooks.loading s;
         Hooks.error := Some (message e) |}
  end.

(** The error a settled call reports, if any: a rejection, or the [error]
    member of its answer. *)
Definition failure_of {R} (err : R -> option Err) (a : Settled R) : option Err :=
  match a with
  | Rejected e => Some e
  | Fulfilled r => err r
  end.

(** The first remote step of [Hooks.signUp] that fails, if any. *)
Definition signUp_failure (remote : Remote) (now email password : string)
                          (userData : Hooks.SignUpData) : option Err :=
  let a := auth_signUp remote email password (Some (Hooks.signUp_metadata userData)) in
  match a with
  | Rejected e => Some e
  | Fulfilled r =>
      match ar_error r, ar_user r with
      | Some e, _ => Some e
      | None, Some u =>
          failure_of w_error
            (insert remote (Hooks.signUp_tableName (Hooks.sd_role userData))
                    (Hooks.insertData now u userData))
      | None, None => None
      end
  end.

(** The tables [Legacy.fetchUserProfile] probes, in order: it stops at the
    first table that yields a row, or at a rejected query. *)
Fixpoint probe (remote : Remote) (userId : string) (tables : list string) : list string :=
  match tables with
  | [] => []
  | t :: rest =>
      t :: match select remote t userId with
           | Fulfilled r =>
               match q_data r with
               | Some _ => []
               | None => probe remote userId rest
               end
           | Rejected _ => []
           end
  end.

(** A user as the identity provider issues it for a known role. *)
Definition user_with_role (id : string) (full_name : JsVal) (r : Role) : User :=
  {| uid := id;
     user_metadata := Some {| md_full_name := full_name; md_role := JStr (role_name r) |} |}.

(** ** A concrete school *)

Definition asha : User := user_with_role "U1" (JStr "Asha") Student.

Definition asha_row : JsObj :=
  [ ("id", JStr "U1"); ("roll_no", JStr "STD-A-01"); ("name", JStr "Asha") ].

Definition asha_profile : Hooks.UserProfile :=
  {| Hooks.id := JStr "U1";
     Hooks.role := JStr "student";
     Hooks.name := JStr "Asha";
     Hooks.email := JUndefined;
     Hooks.roll_no := JStr "STD-A-01";
     Hooks.standard := JUndefined;
     Hooks.class := JUndefined;
     Hooks.linked_student_roll := JUndefined |}.

(** A user whose metadata carries no role. *)
Definition guest : User := {| uid := "U2"; user_metadata := None |}.

Definition no_rows : Err :=
  {| code := JStr "PGRST116";
     message := "JSON object requested, multiple (or no) rows returned" |}.

Definition unreachable : Err := {| code := JUndefined; message := "Failed to fetch" |}.

Definition duplicate_key : Err :=
  {| code := JStr "23505"; message := "duplicate key value violates unique constraint" |}.

(** Asha has a session and a row in [students]; every other lookup finds no
    row; sign-up issues the id U9; every write succeeds. *)
Definition school : Remote :=
  {| getSession :=
       Fulfilled {| sr_session := Some {| s_user := Some asha |}; sr_error := None |};
     select := fun table id =>
       if (table =? "students") && (id =? "U1")
       then Fulfilled {| q_data := Some asha_row; q_error := None |}
       else Fulfilled {| q_data := None; q_error := Some no_rows |};
     insert := fun _ _ => Fulfilled {| w_error := None |};
     auth_signUp := fun _ _ data =>
       Fulfilled {| ar_user := Some {| uid := "U9"; user_metadata := data |};
                    ar_session := None; ar_error := None |};
     signInWithPassword := fun _ _ =>
       Fulfilled {| ar_user := Some asha;
                    ar_session := Some {| s_user := Some asha |}; ar_error := None |};
     auth_signOut := Fulfilled {| w_error := None |} |}.

(** The same school while the sign-out endpoint is unreachable. *)
Definition school_signOut_fails : Remote :=
  {| getSession := getSession school;
     select := select school;
     insert := insert school;
     auth_signUp := auth_signUp school;
     signInWithPassword := signInWithPassword school;
     auth_signOut := Fulfilled {| w_error := Some unreachable |} |}.

(** The same school while every insert is refused. *)
Definition school_insert_fails : Remote :=
  {| getSession := getSession school;
     select := select school;
     insert := fun _ _ => Fulfilled {| w_error := Some duplicate_key |};
     auth_signUp := auth_signUp school;
     signInWithPassword := signInWithPassword school;
     auth_signOut := auth_signOut school |}.

(** Asha signed in and her profile loaded. *)
Definition asha_signed_in : Hooks.AuthState :=
  {| Hooks.user := Some asha;
     Hooks.profile := Some asha_profile;
     Hooks.loading := false;
     Hooks.error := None |}.

Definition world_of {S} (s : S) : World S :=
  {| state := s; mounted := true; log := [] |}.

Definition faculty_form : Hooks.SignUpData :=
  {| Hooks.sd_role := "faculty";
     Hooks.sd_full_name := "Ravi";
     Hooks.sd_email := "ravi@school.test";
     Hooks.sd_password := "s3cret!pass" |}.

(** A user whose role claim is none of the three roles. *)
Definition registrar : User :=
  {| uid := "U3";
     user_metadata := Some {| md_full_name := JStr "Registrar"; md_role := JStr "admin" |} |}.

(** A parent with a role claim but no row in [parents]. *)
Definition meena : User := user_with_role "U4" (JStr "Meena") Parent.

Definition session_of (u : User) : option Session := Some {| s_user := Some u |}.

(** Mount; the session check finds Asha; her profile query resolves. *)
Definition asha_loaded : list Sync.Action :=
  [Sync.Mount; Sync.Settle 0; Sync.Settle 0].

(** Mount; the session check finds Asha and issues her profile query; the
    provider is torn down while that query is in flight. *)
Definition teardown_mid_fetch : list Sync.Action :=
  [Sync.Mount; Sync.Settle 0; Sync.Teardown].

Definition student_form : Legacy.SignupData :=
  {| Legacy.role := "student";
     Legacy.name := "Asha";
     Legacy.email := None;
     Legacy.password := "s3cret!pass";
     Legacy.roll_no := Some "STD-A-01";
     Legacy.standard := Some "8";
     Legacy.class := Some "A";
     Legacy.linked_student_roll := None |}.

(** * App: DashboardRouter, AppContent, App (src/unnamed/part_002) *)

Module Router.
Import Hooks.

Inductive Dashboard : Type :=
| FacultyDashboard
| StudentDashboard
| ParentDashboard
| UnknownRole (role : JsVal).   (* the "Unknown Role" notice, quoting the role *)

(** [renderDashboard]: the [switch (profile.role)]. *)
Definition renderDashboard (p : UserProfile) : Dashboard :=
  if is_str (role p) "faculty" then FacultyDashboard
  else if is_str (role p) "student" then StudentDashboard
  else if is_str (role p) "parent" then ParentDashboard
  else UnknownRole (role p).

(** The body of [DashboardRouter] once [useAuth()] has returned: [None] is
    the [null] of its guard, [Some d] the page layout (navigation bar and
    main area) around dashboard [d]. *)
Definition route (ctx : AuthContextType.t) : option Dashboard :=
  if negb (AuthContextType.isAuthenticated ctx)
     || negb (is_some (AuthContextType.profile ctx))
  then None
  else
    match AuthContextType.profile ctx with
    | Some p => Some (renderDashboard p)
    | None => None
    end.

Definition DashboardRouter (enclosing : list AuthContextType.t)
  : Outcome (option Dashboard) :=
  match useAuth enclosing with
  | Returned ctx => Returned (route ctx)
  | Thrown e => Thrown e
  end.

(** What the application shows. *)
Inductive Screen : Type :=
| Spinner                 (* the gate's loading view *)
| SpinnerWithCaption      (* [AppContent]'s own loading view, "Loading..." *)
| LoginForm
| ProfileNotFoundNotice
| Blank                   (* the router returned [null] *)
| Page (d : Dashboard).

(** [<ProtectedRoute><DashboardRouter /></ProtectedRoute>] under the
    providers [enclosing]. *)
Definition gated_router (enclosing : list AuthContextType.t) : Outcome Screen :=
  match Gate.ProtectedRoute enclosing with
  | Thrown e => Thrown e
  | Returned Gate.LoadingSpinner => Returned Spinner
  | Returned Gate.AuthForm => Returned LoginForm
  | Returned Gate.ProfileNotFound => Returned ProfileNotFoundNotice
  | Returned Gate.Children =>
      match DashboardRouter enclosing with
      | Thrown e => Thrown e
      | Returned None => Returned Blank
      | Returned (Some d) => Returned (Page d)
      end
  end.

(** [App] of the first revision: the provider (its cells being [st]) around
    the gated router.  The [Toaster] beside it shows nothing of the state. *)
Definition App (st : AuthState) : Outcome Screen :=
  gated_router [value st].

(** [AppContent] of the second revision: its own loading check first. *)
Definition AppContent (enclosing : list AuthContextType.t) : Outcome Screen :=
  match useAuth enclosing with
  | Thrown e => Thrown e
  | Returned ctx =>
      if AuthContextType.loading ctx then Returned SpinnerWithCaption
      else gated_router enclosing
  end.

(** [App] of the second revision. *)
Definition App2 (st : AuthState) : Outcome Screen :=
  AppContent [value st].

End Router.

(** * The provider together with the callers of its actions *)

Module Client.
Import Hooks.

(** What can happen to a mounted provider: a step of its effect, or a
    component calling one of the actions of the context value. *)
Inductive Action : Type :=
| Provider (a : Sync.Action)
| CallSignUp (now email password : string) (userData : SignUpData)
| CallSignIn (email password : string)
| CallSignOut.

(** The action as the scheduler sees it: its result, returned or thrown,
    goes to the caller and not to the provider. *)
Definition detached {A} (p : Prog AuthState A) : Prog AuthState unit :=
  _ <- p ;; Ret tt.

Definition step (remote : Remote) (a : Action) (s : Sync.Sys) : Sync.Sys :=
  match a with
  | Provider a' => Sync.step remote a' s
  | CallSignUp now email password userData =>
      Sync.spawn (detached (signUp now email password userData)) s
                 (Sync.subscribed s) (Sync.inflight s)
  | CallSignIn email password =>
      Sync.spawn (detached (signIn email password)) s
                 (Sync.subscribed s) (Sync.inflight s)
  | CallSignOut =>
      Sync.spawn (detached signOut) s (Sync.subscribed s) (Sync.inflight s)
  end.

Definition exec (remote : Remote) (trace : list Action) (s : Sync.Sys) : Sync.Sys :=
  fold_left (fun s a => step remote a s) trace s.

End Client.

(** * Vocabulary of the further properties *)

Section Safety.

Context {St : Type}.
Variable I : St -> Prop.       (* a property of the state cells *)
Variable Q : Request -> Prop.  (* a property of the requests issued *)

(** Every update of the program keeps [I], and every request it can issue
    satisfies [Q], whatever the service answers. *)
Fixpoint safe {A} (p : Prog St A) : Prop :=
  match p with
  | Ret _ => True
  | Throw _ => True
  | Update f k => (forall s, I s -> I (f s)) /\ safe k
  | IsMounted k => forall m, safe (k m)
  | Await c k => Q (Req c) /\ forall r, safe (k r)
  end.

Definition world_ok (w : World St) : Prop :=
  I (state w) /\ Forall Q (log w).

End Safety.

(** The profile cell, when set, holds a profile whose role is one of the
    three roles. *)
Definition profile_role_known (s : Hooks.AuthState) : Prop :=
  match Hooks.profile s with
  | Some p => exists r, Hooks.role p = JStr (role_name r)
  | None => True
  end.

Definition is_role_table (t : string) : Prop :=
  exists r, t = role_table r.

(** The requests of the synchronizer: the session check and selects on the
    three role tables. *)
Definition read_only (r : Request) : Prop :=
  match r with
  | Req GetSession => True
  | Req (Select t _) => is_role_table t
  | Req _ => False
  end.

(** The requests of the whole client: those of the synchronizer, the three
    identity calls, and inserts into a role table or, for a sign-up with a
    role outside the three, into the table named by the empty string. *)
Definition client_request (r : Request) : Prop :=
  match r with
  | Req GetSession => True
  | Req (Select t _) => is_role_table t
  | Req (Insert t _) => is_role_table t \/ t = ""
  | Req (AuthSignUp _ _ d) => d <> None
  | Req (SignInWithPassword _ _) => True
  | Req AuthSignOut => True
  end.

Definition sys_ok (I : Hooks.AuthState -> Prop) (Q : Request -> Prop)
                  (s : Sync.Sys) : Prop :=
  world_ok I Q (Sync.world s) /\ Forall (safe I Q) (Sync.inflight s).

(** The state a mount-time session check leaves once everything it started
    has settled. *)
Definition restored (remote : Remote) : Hooks.AuthState :=
  match getSession remote with
  | Rejected e =>
      {| Hooks.user := None; Hooks.profile := None;
         Hooks.loading := false; Hooks.error := Some (message e) |}
  | Fulfilled r =>
      match sr_error r, session_user (sr_session r) with
      | Some e, _ =>
          {| Hooks.user := None; Hooks.profile := None;
             Hooks.loading := false; Hooks.error := Some (message e) |}
      | None, None =>
          {| Hooks.user := None; Hooks.profile := None;
             Hooks.loading := false; Hooks.error := None |}
      | None, Some u =>
          if negb (truthy (role_claim u)) then
            {| Hooks.user := Some u; Hooks.profile := None;
               Hooks.loading := false;
               Hooks.error := Some "No role found in user profile" |}
          else
            match Hooks.tableName (role_claim u) with
            | None =>
                {| Hooks.user := Some u; Hooks.profile := None;
                   Hooks.loading := false;
                   Hooks.error := Some "Invalid user role" |}
            | Some t =>
                after_query (role_claim u) (classify (select remote t (uid u)))
                  {| Hooks.user := Some u; Hooks.profile := None;
                     Hooks.loading := false; Hooks.error := None |}
            end
      end
  end.

(** The dashboard of a role. *)
Definition dashboard_of (r : Role) : Router.Dashboard :=
  match r with
  | Faculty => Router.FacultyDashboard
  | Student => Router.StudentDashboard
  | Parent => Router.ParentDashboard
  end.

(** What the application shows for given state cells, read off the cells
    alone. *)
Definition screen_of (st : Hooks.AuthState) : Router.Screen :=
  if Hooks.loading st then Router.Spinner
  else
    match Hooks.user st, Hooks.profile st with
    | Some _, Some p =>
        if match Hooks.error st with Some e => e =? NO_PROFILE | None => false end
        then Router.ProfileNotFoundNotice
        else Router.Page (Router.renderDashboard p)
    | _, _ => Router.LoginForm
    end.

(** A sign-up form whose role is none of the three. *)
Definition registrar_form : Hooks.SignUpData :=
  {| Hooks.sd_role := "admin";
     Hooks.sd_full_name := "Registrar";
     Hooks.sd_email := "office@school.test";
     Hooks.sd_password := "s3cret!pass" |}.

Definition registrar_form2 : Context2.SignupData :=
  {| Context2.role := "admin";
     Context2.full_name := "Registrar";
     Context2.email := "office@school.test";
     Context2.password := "s3cret!pass" |}.

(** A second user of the school, a faculty member. *)
Definition ravi : User := user_with_role "U5" (JStr "Ravi") Faculty.

Definition ravi_row : JsObj :=
  [ ("id", JStr "U5"); ("full_name", JStr "Ravi"); ("email", JStr "ravi@school.test") ].

(** Nobody is signed in; Asha has her row in [students], Ravi his in
    [faculty]. *)
Definition school_signed_out : Remote :=
  {| getSession := Fulfilled {| sr_session := None; sr_error := None |};
     select := fun table id =>
       if (table =? "students") && (id =? "U1")
       then Fulfilled {| q_data := Some asha_row; q_error := None |}
       else if (table =? "faculty") && (id =? "U5")
       then Fulfilled {| q_data := Some ravi_row; q_error := None |}
       else Fulfilled {| q_data := None; q_error := Some no_rows |};
     insert := insert school;
     auth_signUp := auth_signUp school;
     signInWithPassword := signInWithPassword school;
     auth_signOut := auth_signOut school |}.

(** The text of a toast, and whether it reports success. *)
Definition toast_text (t : Legacy.Toast) : string :=
  match t with
  | Legacy.toast_success msg => msg
  | Legacy.toast_error msg => msg
  end.

Definition is_success (t : Legacy.Toast) : bool :=
  match t with
  | Legacy.toast_success _ => true
  | Legacy.toast_error _ => false
  end.

(** The role a claim names, if it is one of the three. *)
Definition role_of_claim (v : JsVal) : option Role :=
  if is_str v "faculty" then Some Faculty
  else if is_str v "student" then Some Student
  else if is_str v "parent" then Some Parent
  else None.

(** What the service holds for the profile fetch of src/unnamed/part_004:
    the row of the claimed role's table for this id, tagged with the role;
    nothing when the claim names no role, the query rejects, or its answer
    carries no row. *)
Definition context2_found (remote : Remote) (id : string) (role : JsVal)
  : option JsObj :=
  match role_of_claim role with
  | None => None
  | Some r =>
      match select remote (role_table r) id with
      | Rejected _ => None
      | Fulfilled resp =>
          match q_data resp with
          | Some data => Some (spread_with data "role" (JStr (role_name r)))
          | None => None
          end
      end
  end.

(** The answer of one table to the probe of src/context/AuthContext.tsx:
    a row, no row, or a rejection (which ends the probe). *)
Inductive Probed : Type :=
| Row (data : JsObj)
| NoRow
| Broken.

Definition probed (remote : Remote) (table id : string) : Probed :=
  match select remote table id with
  | Rejected _ => Broken
  | Fulfilled resp =>
      match q_data resp with
      | Some data => Row data
      | None => NoRow
      end
  end.

(** What the service holds for the profile fetch of
    src/context/AuthContext.tsx: the first row met in [faculty] (tagged
    faculty), [users] (as it is), [parents] (tagged parent); nothing when no
    table has a row or a query rejects before one is met. *)
Definition legacy_found (remote : Remote) (id : string) : option JsObj :=
  match probed remote "faculty" id with
  | Row d => Some (spread_with d "role" (JStr "faculty"))
  | Broken => None
  | NoRow =>
      match probed remote "users" id with
      | Row d => Some d
      | Broken => None
      | NoRow =>
          match probed remote "parents" id with
          | Row d => Some (spread_with d "role" (JStr "parent"))
          | Broken => None
          | NoRow => None
          end
      end
  end.

(** * Properties *)

(** ** Running composed programs *)

Section RunLaws.

Context {S : Type} (remote : Remote).

Lemma run_bind {A B} (p : Prog S A) (f : A -> Prog S B) (w : World S) :
  run remote (bind p f) w =
  match run remote p w with
  | (Returned a, w') => run remote (f a) w'
  | (Thrown e, w') => (Thrown e, w')
  end.
Proof.
  revert w.
  induction p as [a | e | g k IH | k IH | R c k IH]; intro w; simpl; auto.
Qed.

Lemma run_try_catch {A} (p : Prog S A) (h : Err -> Prog S A) (w : World S) :
  run remote (try_catch p h) w =
  match run remote p w with
  | (Returned a, w') => (Returned a, w')
  | (Thrown e, w') => run remote (h e) w'
  end.
Proof.
  revert w.
  induction p as [a | e | g k IH | k IH | R c k IH]; intro w; simpl; auto.
Qed.

Lemma run_try_finally {A} (p : Prog S A) (fin : Prog S unit) (w : World S) :
  run remote (try_finally p fin) w =
  match run remote p w with
  | (Returned a, w') =>
      match run remote fin w' with
      | (Returned _, w'') => (Returned a, w'')
      | (Thrown e, w'') => (Thrown e, w'')
      end
  | (Thrown e, w') =>
      match run remote fin w' with
      | (Returned _, w'') => (Thrown e, w'')
      | (Thrown e', w'') => (Thrown e', w'')
      end
  end.
Proof.
  revert w.
  induction p as [a | e | g k IH | k IH | R c k IH]; intro w; simpl; auto;
    rewrite run_bind; destruct (run remote fin w) as [[u | e'] w'']; reflexivity.
Qed.

Lemma run_await {R} (c : Call R) (w : World S) :
  run remote (await c) w =
  match answer remote c with
  | Fulfilled r => (Returned r, issue c w)
  | Rejected e => (Thrown e, issue c w)
  end.
Proof.
  unfold await; simpl. destruct (answer remote c); reflexivity.
Qed.

Lemma run_set (f : S -> S) (w : World S) :
  run remote (set f) w = (Returned tt, update f w).
Proof. reflexivity. Qed.

(** The request log only grows. *)
Lemma run_log_extends {A} (p : Prog S A) (w : World S) :
  exists l, log (snd (run remote p w)) = (log w ++ l)%list.
Proof.
  revert w.
  induction p as [a | e | g k IH | k IH | R c k IH]; intro w; simpl.
  - exists []. now rewrite app_nil_r.
  - exists []. now rewrite app_nil_r.
  - destruct (IH (update g w)) as [l Hl]. exists l. exact Hl.
  - apply IH.
  - destruct (IH (answer remote c) (issue c w)) as [l Hl].
    exists (Req c :: l). rewrite Hl. simpl. now rewrite <- app_assoc.
Qed.

(** A run never touches the [mounted] flag. *)
Lemma run_mounted {A} (p : Prog S A) (w : World S) :
  mounted (snd (run remote p w)) = mounted w.
Proof.
  revert w.
  induction p as [a | e | g k IH | k IH | R c k IH]; intro w; simpl; auto.
  - now rewrite IH.
  - now rewrite IH.
Qed.

(** The two ways of running agree: a run to completion is the synchronous
    prefix followed by the run of what is resumed when the pending call
    settles. *)
Lemma run_advance (p : Prog S unit) (w : World S) :
  match advance p w with
  | (w', None) => snd (run remote p w) = w'
  | (w', Some q) => run remote p w = run remote (resume remote q) w'
  end.
Proof.
  revert w.
  induction p as [a | e | g k IH | k IH | R c k IH]; intro w; simpl;
    try reflexivity.
  - apply IH.
  - apply IH.
Qed.

End RunLaws.

(** ** The profile fetch of hooks/useAuth *)

Lemma known_role_table (r : Role) :
  truthy (JStr (role_name r)) = true /\
  Hooks.tableName (JStr (role_name r)) = Some (role_table r).
Proof. destruct r; split; reflexivity. Qed.

(** With a known role claim the fetch issues one query, on the role's table,
    and never throws; its effect on the state is [after_query]. *)
Lemma fetch_known_role (remote : Remote) (id : string) (fn : JsVal) (r : Role)
                       (w : World Hooks.AuthState) :
  run remote (Hooks.fetchUserProfile (user_with_role id fn r)) w =
  (Returned tt,
   {| state := after_query (JStr (role_name r))
                           (classify (select remote (role_table r) id)) (state w);
      mounted := mounted w;
      log := log w ++ [Req (Select (role_table r) id)] |}).
Proof.
  unfold Hooks.fetchUserProfile.
  assert (Hc : role_claim (user_with_role id fn r) = JStr (role_name r)) by reflexivity.
  rewrite Hc.
  destruct (known_role_table r) as [Ht Hn]. rewrite Ht, Hn. simpl.
  unfold classify.
  destruct (select remote (role_table r) id) as [[d [pe|]] | e]; simpl.
  - destruct (is_str (code pe) "PGRST116"); reflexivity.
  - destruct d; destruct w as [s m l]; reflexivity.
  - reflexivity.
Qed.

(** X6: without a usable role claim (absent, falsy, or none of the three
    roles) the fetch issues no query, returns normally and writes only the
    error cell: "No role found in user profile" for a falsy claim, "Invalid
    user role" otherwise. *)
Lemma fetch_no_role (remote : Remote) (u : User) (w : World Hooks.AuthState) :
  Hooks.tableName (role_claim u) = None ->
  run remote (Hooks.fetchUserProfile u) w =
  (Returned tt,
   {| state := {| Hooks.user := Hooks.user (state w);
                  Hooks.profile := Hooks.profile (state w);
                  Hooks.loading := Hooks.loading (state w);
                  Hooks.error :=
                    Some (if truthy (role_claim u) then "Invalid user role"
                          else "No role found in user profile") |};
      mounted := mounted w;
      log := log w |}).
Proof.
  intro Hn. unfold Hooks.fetchUserProfile. rewrite Hn.
  destruct (truthy (role_claim u)); reflexivity.
Qed.

Lemma fetch_no_role_witness :
  run school (Hooks.fetchUserProfile guest) (world_of Hooks.initial)
  = (Returned tt,
     world_of {| Hooks.user := None; Hooks.profile := None; Hooks.loading := true;
                 Hooks.error := Some "No role found in user profile" |}).
Proof.
  exact (fetch_no_role school guest (world_of Hooks.initial) eq_refl).
Defined.

(** ** Which tables a profile fetch queries *)

(** C1, as stated, fails on src/context/AuthContext.tsx: its profile fetch
    takes the user id alone.  For Asha, whose role claim is [student], it
    queries [faculty], then [users], then [parents], and never [students]. *)
Lemma legacy_fetch_ignores_role_claim :
  role_claim asha = JStr (role_name Student)
  /\ tables_of (log (snd (run school (Legacy.fetchUserProfile (uid asha))
                              (world_of Legacy.initial))))
     = ["faculty"; "users"; "parents"]
  /\ tables_of (log (snd (run school
                              (Legacy.onAuthStateChange "SIGNED_IN" (session_of asha))
                              (world_of Legacy.initial))))
     = ["faculty"; "users"; "parents"].
Proof. split; [| split]; reflexivity. Qed.

(** C1 (amended): for every session whose role claim is faculty, student or
    parent, the role-aware profile fetches ([Hooks.fetchUserProfile] of
    src/unnamed/part_000 and [Context2.fetchUserProfile] of
    src/unnamed/part_004) issue exactly one request, a select on the table the
    mapping fixes for that role; the fetch of src/context/AuthContext.tsx does
    not read the claim and probes [faculty], [users], [parents] in that order,
    stopping at the first row or rejection. *)
Theorem profile_fetch_tables :
  (forall remote id fn r (w : World Hooks.AuthState),
      log (snd (run remote (Hooks.fetchUserProfile (user_with_role id fn r)) w))
      = (log w ++ [Req (Select (role_table r) id)])%list)
  /\
  (forall remote id fn r (w : World Context2.AuthState),
      log (snd (run remote
                  (Context2.fetchUserProfile id (role_claim (user_with_role id fn r))) w))
      = (log w ++ [Req (Select (role_table r) id)])%list)
  /\
  (forall remote userId (w : World Legacy.AuthState),
      log (snd (run remote (Legacy.fetchUserProfile userId) w))
      = (log w ++ map (fun t => Req (Select t userId))
                      (probe remote userId ["faculty"; "users"; "parents"]))%list).
Proof.
  split; [| split].
  - intros. now rewrite fetch_known_role.
  - intros remote id fn r w.
    unfold Context2.fetchUserProfile, Context2.query_as.
    destruct r; simpl;
      match goal with
      | |- context [select remote ?t id] =>
          destruct (select remote t id) as [[[d|] pe] | e]; reflexivity
      end.
  - intros remote userId w.
    unfold Legacy.fetchUserProfile. simpl.
    destruct (select remote "faculty" userId) as [[[d1|] e1] | e1]; simpl;
      try reflexivity.
    destruct (select remote "users" userId) as [[[d2|] e2] | e2]; simpl;
      try (now rewrite <- app_assoc).
    destruct (select remote "parents" userId) as [[[d3|] e3] | e3]; simpl;
      now rewrite <- !app_assoc.
Qed.

(** ** Profile resolution without a usable role claim *)

(** C4 at its failing input: Asha is signed in with her profile loaded when
    SIGNED_IN arrives for a user without a role claim.  The fetch sets the
    error and issues no query, but the profile cell still holds Asha's
    profile, so the snapshot is authenticated and the gate renders the
    protected content.  The same happens on the invalid-role path. *)
Theorem fetch_without_role_keeps_profile :
  (let s := Sync.step school (Sync.Emit "SIGNED_IN" (session_of guest))
                      (Sync.exec school asha_loaded Sync.before_mount) in
   state (Sync.world s)
   = {| Hooks.user := Some guest;
        Hooks.profile := Some asha_profile;
        Hooks.loading := false;
        Hooks.error := Some "No role found in user profile" |}
   /\ log (Sync.world s) = [Req GetSession; Req (Select "students" "U1")]
   /\ Gate.ProtectedRoute [Hooks.value (state (Sync.world s))] = Returned Gate.Children)
  /\
  run school (Hooks.fetchUserProfile registrar) (world_of asha_signed_in)
  = (Returned tt,
     world_of {| Hooks.user := Some asha;
                 Hooks.profile := Some asha_profile;
                 Hooks.loading := false;
                 Hooks.error := Some "Invalid user role" |}).
Proof.
  cbv zeta.
  split; [split; [reflexivity | split; reflexivity] | reflexivity].
Qed.

(** ** Failures of the profile query *)

(** C5: with a known role claim, a query answered with error code PGRST116
    (no row for the id) sets the distinguished message and a null profile; a
    query answered with any other error, or rejected, stores that error's
    message and a null profile; in every case the fetch returns normally and
    leaves [user] and [loading] alone. *)
Theorem profile_query_failures
        (remote : Remote) (id : string) (fn : JsVal) (r : Role)
        (w : World Hooks.AuthState) :
  let a := select remote (role_table r) id in
  let out := run remote (Hooks.fetchUserProfile (user_with_role id fn r)) w in
  let s' := state (snd out) in
  fst out = Returned tt
  /\ Hooks.user s' = Hooks.user (state w)
  /\ Hooks.loading s' = Hooks.loading (state w)
  /\ (forall d pe,
        a = Fulfilled {| q_data := d; q_error := Some pe |} ->
        code pe = JStr "PGRST116" ->
        Hooks.error s' = Some NO_PROFILE /\ Hooks.profile s' = None)
  /\ (forall d pe,
        a = Fulfilled {| q_data := d; q_error := Some pe |} ->
        code pe <> JStr "PGRST116" ->
        Hooks.error s' = Some (message pe) /\ Hooks.profile s' = None)
  /\ (forall e,
        a = Rejected e ->
        Hooks.error s' = Some (message e) /\ Hooks.profile s' = None).
Proof.
  intros a out s'. subst s' out. rewrite fetch_known_role. simpl. fold a.
  split; [reflexivity |].
  split; [destruct (classify a) as [d | | | e]; reflexivity |].
  split; [destruct (classify a) as [d | | | e]; reflexivity |].
  split; [| split].
  - intros d pe Ha Hc. rewrite Ha. unfold classify; simpl. rewrite Hc.
    simpl. split; reflexivity.
  - intros d pe Ha Hc. rewrite Ha. unfold classify; simpl.
    assert (Hf : is_str (code pe) "PGRST116" = false).
    { destruct (code pe) as [ | | b | n | c]; try reflexivity.
      simpl. apply String.eqb_neq. intro E. apply Hc. now rewrite E. }
    rewrite Hf. split; reflexivity.
  - intros e Ha. rewrite Ha. split; reflexivity.
Qed.

(** The scenario of the design: Meena's role is parent and [parents] has no
    row for her id. *)
Lemma profile_query_failures_witness :
  let s' := state (snd (run school (Hooks.fetchUserProfile meena)
                            (world_of Hooks.initial))) in
  Hooks.error s' = Some NO_PROFILE
  /\ Hooks.profile s' = None
  /\ Hooks.AuthContextType.isAuthenticated (Hooks.value s') = false.
Proof.
  pose proof (profile_query_failures school "U4" (JStr "Meena") Parent
                (world_of Hooks.initial)) as H.
  cbv zeta in H.
  destruct H as (_ & _ & _ & Hnf & _ & _).
  destruct (Hnf None no_rows eq_refl eq_refl) as [He Hp].
  split; [exact He | split; [exact Hp | reflexivity]].
Defined.

(** ** Teardown and the liveness flag *)

(** A callback invoked while the flag is cleared writes nothing and issues
    nothing. *)
Lemma callback_unmounted_is_noop (event : string) (session : option Session)
      (w : World Hooks.AuthState) :
  mounted w = false ->
  advance (Hooks.onAuthStateChange event session) w = (w, None).
Proof.
  intro Hm. unfold Hooks.onAuthStateChange. simpl. rewrite Hm. reflexivity.
Qed.

(** X2: what the flag does guard.  Once torn down, the provider is
    unsubscribed, so a pushed event changes nothing; and were the callback
    still invoked, it would find the flag cleared and return at once. *)
Theorem event_after_teardown_dropped (remote : Remote) (s : Sync.Sys)
        (event : string) (session : option Session) :
  let s' := Sync.step remote Sync.Teardown s in
  Sync.step remote (Sync.Emit event session) s' = s'
  /\ advance (Hooks.onAuthStateChange event session) (Sync.world s')
     = (Sync.world s', None).
Proof.
  intro s'. split.
  - reflexivity.
  - apply callback_unmounted_is_noop. reflexivity.
Qed.

(** X1: a session check that resolves while the flag is cleared writes
    nothing and issues nothing, whatever state the cells are in and whatever
    the service answers: resuming it is a no-op, and so is the scheduler step
    that settles it. *)
Theorem session_check_after_teardown :
  (forall remote (w : World Hooks.AuthState),
      mounted w = false ->
      advance (resume remote Hooks.initializeAuth) w = (w, None))
  /\
  (forall remote (s : Sync.Sys) (i : nat),
      mounted (Sync.world s) = false ->
      nth_error (Sync.inflight s) i = Some Hooks.initializeAuth ->
      Sync.step remote (Sync.Settle i) s
      = {| Sync.world := Sync.world s;
           Sync.subscribed := Sync.subscribed s;
           Sync.inflight := Sync.remove_nth i (Sync.inflight s) |}).
Proof.
  assert (H : forall remote (w : World Hooks.AuthState),
             mounted w = false ->
             advance (resume remote Hooks.initializeAuth) w = (w, None)).
  { intros remote w Hm. unfold Hooks.initializeAuth. simpl.
    destruct (getSession remote) as [[sess [e |]] | e]; simpl;
      rewrite Hm; reflexivity. }
  split; [exact H |].
  intros remote s i Hm Hi. simpl. rewrite Hi. unfold Sync.spawn.
  rewrite (H remote (Sync.world s) Hm). now rewrite app_nil_r.
Qed.

(** Mount, teardown, and only then the answer to the session check. *)
Lemma session_check_after_teardown_witness :
  let s := Sync.exec school [Sync.Mount; Sync.Teardown; Sync.Settle 0]
                     Sync.before_mount in
  state (Sync.world s) = Hooks.initial /\ Sync.inflight s = [].
Proof.
  pose proof (proj2 session_check_after_teardown school
                (Sync.exec school [Sync.Mount; Sync.Teardown] Sync.before_mount)
                0 eq_refl eq_refl) as H.
  cbv zeta.
  change (Sync.exec school [Sync.Mount; Sync.Teardown; Sync.Settle 0]
                    Sync.before_mount)
    with (Sync.step school (Sync.Settle 0)
            (Sync.exec school [Sync.Mount; Sync.Teardown] Sync.before_mount)).
  rewrite H. split; reflexivity.
Defined.

(** C2 at its failing input: the provider is torn down while Asha's profile
    query is in flight (flag cleared, subscription removed, one call
    pending).  When the query then resolves, [profile] and [loading] are
    written all the same: [fetchUserProfile] and the [setLoading(false)] after
    it do not consult the flag. *)
Theorem teardown_mid_fetch_still_writes :
  let s1 := Sync.exec school teardown_mid_fetch Sync.before_mount in
  let s2 := Sync.step school (Sync.Settle 0) s1 in
  mounted (Sync.world s1) = false
  /\ Sync.subscribed s1 = false
  /\ length (Sync.inflight s1) = 1
  /\ state (Sync.world s1)
     = {| Hooks.user := Some asha; Hooks.profile := None;
          Hooks.loading := true; Hooks.error := None |}
  /\ state (Sync.world s2)
     = {| Hooks.user := Some asha; Hooks.profile := Some asha_profile;
          Hooks.loading := false; Hooks.error := None |}.
Proof.
  cbv zeta. repeat (split; [reflexivity |]). reflexivity.
Qed.

(** ** Sign-out *)

(** C3, as stated, fails: while the sign-out endpoint is unreachable,
    signing out leaves Asha's user and profile in place and only records the
    error. *)
Lemma signOut_failure_keeps_session :
  auth_signOut school_signOut_fails = Fulfilled {| w_error := Some unreachable |}
  /\ state (snd (run school_signOut_fails Hooks.signOut (world_of asha_signed_in)))
     = {| Hooks.user := Some asha;
          Hooks.profile := Some asha_profile;
          Hooks.loading := false;
          Hooks.error := Some "Failed to fetch" |}.
Proof. split; reflexivity. Qed.

(** C3 (amended): sign-out clears [user] and [profile] (and [error]) exactly
    when the remote sign-out succeeds; when it reports an error or rejects,
    [user] and [profile] keep their values and the error's message is stored;
    [loading] ends false either way.  The [logout] of
    src/context/AuthContext.tsx likewise clears [user] only on success. *)
Theorem signOut_clears_on_success_only :
  (forall remote (w : World Hooks.AuthState),
      state (snd (run remote Hooks.signOut w))
      = match failure_of w_error (auth_signOut remote) with
        | None =>
            {| Hooks.user := None; Hooks.profile := None;
               Hooks.loading := false; Hooks.error := None |}
        | Some e =>
            {| Hooks.user := Hooks.user (state w);
               Hooks.profile := Hooks.profile (state w);
               Hooks.loading := false;
               Hooks.error := Some (message e) |}
        end)
  /\
  (forall remote (w : World Legacy.AuthState),
      Legacy.user (state (snd (run remote Legacy.logout w)))
      = match failure_of w_error (auth_signOut remote) with
        | None => None
        | Some _ => Legacy.user (state w)
        end).
Proof.
  split; intros remote w.
  - unfold Hooks.signOut; simpl.
    destruct (auth_signOut remote) as [[[e|]] | e]; reflexivity.
  - unfold Legacy.logout; simpl.
    destruct (auth_signOut remote) as [[[e|]] | e]; reflexivity.
Qed.

(** ** Sign-up: identity first, then one row *)

Lemma role_tables_agree (r : Role) :
  Hooks.signUp_tableName (role_name r) = role_table r.
Proof. destruct r; reflexivity. Qed.

(** C6: when identity creation succeeds and the insert that follows fails
    (its answer carries an error, or it rejects), sign-up ends by throwing
    the insert's error; exactly two requests were issued, in this order: the
    identity creation with the role and name as metadata, then one insert
    into the role's table of a row whose [id] is the newly issued id; the
    profile cell is not written.  This holds for [signUp] of
    src/unnamed/part_000 and for [signup] of src/unnamed/part_004. *)
Theorem signUp_insert_failure :
  (forall remote now email password fullname mail pw (r : Role) u0 sess ie
          (w : World Hooks.AuthState),
      let userData :=
        {| Hooks.sd_role := role_name r; Hooks.sd_full_name := fullname;
           Hooks.sd_email := mail; Hooks.sd_password := pw |} in
      let metadata :=
        Some {| md_full_name := JStr fullname; md_role := JStr (role_name r) |} in
      let row := Hooks.insertData now u0 userData in
      auth_signUp remote email password metadata
      = Fulfilled {| ar_user := Some u0; ar_session := sess; ar_error := None |} ->
      failure_of w_error (insert remote (role_table r) row) = Some ie ->
      run remote (Hooks.signUp now email password userData) w
      = (Thrown ie,
         {| state := {| Hooks.user := Hooks.user (state w);
                        Hooks.profile := Hooks.profile (state w);
                        Hooks.loading := false;
                        Hooks.error := Some (message ie) |};
            mounted := mounted w;
            log := log w ++ [Req (AuthSignUp email password metadata);
                             Req (Insert (role_table r) row)] |})
      /\ get row "id" = JStr (uid u0))
  /\
  (forall remote now fullname mail pw (r : Role) u0 sess ie
          (w : World Context2.AuthState),
      let signupData :=
        {| Context2.role := role_name r; Context2.full_name := fullname;
           Context2.email := mail; Context2.password := pw |} in
      let metadata :=
        Some {| md_full_name := JStr fullname; md_role := JStr (role_name r) |} in
      let row := Context2.userData_of now u0 signupData in
      auth_signUp remote mail pw metadata
      = Fulfilled {| ar_user := Some u0; ar_session := sess; ar_error := None |} ->
      failure_of w_error (insert remote (role_table r) row) = Some ie ->
      run remote (Context2.signup now signupData) w
      = (Thrown ie,
         {| state := state w;
            mounted := mounted w;
            log := log w ++ [Req (AuthSignUp mail pw metadata);
                             Req (Insert (role_table r) row)] |})
      /\ get row "id" = JStr (uid u0)).
Proof.
  split.
  - intros remote now email password fullname mail pw r u0 sess ie w
           userData metadata row Hid Hins.
    split; [| reflexivity].
    unfold Hooks.signUp, Hooks.signUp_metadata. simpl.
    fold metadata. rewrite Hid. simpl.
    rewrite role_tables_agree. fold userData. fold row.
    destruct (insert remote (role_table r) row) as [[[e|]] | e];
      simpl in Hins; inversion Hins; subst;
      unfold update, issue; simpl; now rewrite <- app_assoc.
  - intros remote now fullname mail pw r u0 sess ie w
           signupData metadata row Hid Hins.
    split; [| reflexivity].
    unfold Context2.signup. simpl.
    fold metadata. rewrite Hid. simpl. fold signupData. fold row.
    unfold Context2.insert_into.
    destruct r; simpl;
      match goal with
      | |- context [insert remote ?t row] =>
          change t with (role_table Faculty) ||
          change t with (role_table Student) ||
          change t with (role_table Parent)
      end;
      match goal with
      | H : failure_of _ ?a = _ |- _ =>
          destruct a as [[[e|]] | e]; simpl in H; inversion H; subst; simpl
      end;
      unfold update, issue; simpl; now rewrite <- app_assoc.
Qed.

(** The scenario of the design: a faculty sign-up whose identity is created
    (id U9) while the insert into [faculty] is refused. *)
Lemma signUp_insert_failure_witness :
  let out := run school_insert_fails
                 (Hooks.signUp "2024-06-01T08:00:00.000Z" "ravi@school.test"
                               "s3cret!pass" faculty_form)
                 (world_of Hooks.initial) in
  fst out = Thrown duplicate_key
  /\ Hooks.profile (state (snd out)) = None
  /\ tables_of (log (snd out)) = ["faculty"].
Proof.
  destruct signUp_insert_failure as [H _].
  destruct (H school_insert_fails "2024-06-01T08:00:00.000Z" "ravi@school.test"
              "s3cret!pass" "Ravi" "ravi@school.test" "s3cret!pass" Faculty
              {| uid := "U9";
                 user_metadata := Some {| md_full_name := JStr "Ravi";
                                          md_role := JStr "faculty" |} |}
              None duplicate_key (world_of Hooks.initial) eq_refl eq_refl)
    as [Hrun _].
  cbv zeta.
  change faculty_form
    with {| Hooks.sd_role := role_name Faculty; Hooks.sd_full_name := "Ravi";
            Hooks.sd_email := "ravi@school.test";
            Hooks.sd_password := "s3cret!pass" |}.
  rewrite Hrun. repeat split.
Defined.

(** ** Which failures reach the caller *)

(** A [try]/[catch] whose handler returns normally returns normally. *)
Lemma try_catch_returns {S A} (remote : Remote) (p : Prog S A) (h : Err -> Prog S A)
      (w : World S) :
  (forall e w', exists a, fst (run remote (h e) w') = Returned a) ->
  exists a, fst (run remote (try_catch p h) w) = Returned a.
Proof.
  intro Hh. rewrite run_try_catch.
  destruct (run remote p w) as [[a | e] w'].
  - now exists a.
  - apply Hh.
Qed.

(** The profile fetch never throws, whatever the user and the service. *)
Lemma fetch_never_throws (remote : Remote) (u : User) (w : World Hooks.AuthState) :
  fst (run remote (Hooks.fetchUserProfile u) w) = Returned tt.
Proof.
  unfold Hooks.fetchUserProfile.
  match goal with
  | |- fst (run _ (try_catch ?p ?h) _) = _ =>
      destruct (try_catch_returns remote p h w) as [[] Ha]
  end.
  - intros e w'. exists tt. reflexivity.
  - exact Ha.
Qed.

(** C7, as stated, fails for sign-out: while the sign-out endpoint reports
    an error, [signOut] returns normally to its caller. *)
Lemma signOut_failure_not_rethrown :
  failure_of w_error (auth_signOut school_signOut_fails) = Some unreachable
  /\ fst (run school_signOut_fails Hooks.signOut (world_of asha_signed_in))
     = Returned tt.
Proof. split; reflexivity. Qed.

(** C7 (amended): sign-up and sign-in throw to their caller exactly the
    error of the first remote step that fails, after storing its message in
    the error cell, and return the response data when no step fails;
    sign-out never throws: when the remote sign-out fails it stores the
    error's message in the error cell and returns normally (and leaves the
    cell null when it succeeds); the profile fetch of the synchronizer never
    throws either, and every failure of it ends in the error cell: the
    no-role and invalid-role texts, the distinguished not-found text, or the
    message of the query's error or rejection. *)
Theorem auth_action_error_propagation :
  (forall remote now email password userData (w : World Hooks.AuthState),
      let out := run remote (Hooks.signUp now email password userData) w in
      match signUp_failure remote now email password userData with
      | Some e => fst out = Thrown e
                  /\ Hooks.error (state (snd out)) = Some (message e)
      | None => exists d, fst out = Returned d
                          /\ Hooks.error (state (snd out)) = None
      end)
  /\
  (forall remote email password (w : World Hooks.AuthState),
      let out := run remote (Hooks.signIn email password) w in
      match failure_of ar_error (signInWithPassword remote email password) with
      | Some e => fst out = Thrown e
                  /\ Hooks.error (state (snd out)) = Some (message e)
      | None => exists d, fst out = Returned d
                          /\ Hooks.error (state (snd out)) = None
      end)
  /\
  (forall remote (w : World Hooks.AuthState),
      let out := run remote Hooks.signOut w in
      fst out = Returned tt
      /\ Hooks.error (state (snd out))
         = match failure_of w_error (auth_signOut remote) with
           | Some e => Some (message e)
           | None => None
           end)
  /\
  (forall remote u (w : World Hooks.AuthState),
      let out := run remote (Hooks.fetchUserProfile u) w in
      fst out = Returned tt
      /\ Hooks.error (state (snd out))
         = if negb (truthy (role_claim u)) then Some "No role found in user profile"
           else
             match Hooks.tableName (role_claim u) with
             | None => Some "Invalid user role"
             | Some t =>
                 match classify (select remote t (uid u)) with
                 | NotFound => Some NO_PROFILE
                 | Failed e => Some (message e)
                 | Found _ => None
                 | Empty => Hooks.error (state w)
                 end
             end).
Proof.
  split; [| split; [| split]].
  - intros remote now email password userData w out. subst out.
    unfold signUp_failure, Hooks.signUp. simpl.
    destruct (auth_signUp remote email password
                (Some (Hooks.signUp_metadata userData)))
      as [[[u0|] sess [e|]] | e]; simpl; try (split; reflexivity);
      try (eexists; split; reflexivity).
    destruct (insert remote (Hooks.signUp_tableName (Hooks.sd_role userData))
                (Hooks.insertData now u0 userData)) as [[[e|]] | e]; simpl;
      try (split; reflexivity); eexists; split; reflexivity.
  - intros remote email password w out. subst out.
    unfold Hooks.signIn. simpl.
    destruct (signInWithPassword remote email password)
      as [[u0 sess [e|]] | e]; simpl;
      try (split; reflexivity); eexists; split; reflexivity.
  - intros remote w out. subst out. unfold Hooks.signOut. simpl.
    destruct (auth_signOut remote) as [[[e|]] | e]; split; reflexivity.
  - intros remote u w out. subst out.
    split; [apply fetch_never_throws |].
    unfold Hooks.fetchUserProfile. cbv zeta.
    destruct (truthy (role_claim u)); simpl; [| reflexivity].
    destruct (Hooks.tableName (role_claim u)) as [t |]; simpl; [| reflexivity].
    unfold classify.
    destruct (select remote t (uid u)) as [[d [pe |]] | pe]; simpl.
    + destruct (is_str (code pe) "PGRST116"); reflexivity.
    + destruct d; reflexivity.
    + reflexivity.
Qed.

(** ** The route gate *)

(** C8: what [ProtectedRoute] renders is a function of the snapshot alone,
    and follows the priority order loading, error-without-user,
    unauthenticated, profile-not-found, authenticated.  On every context
    value the order holds with "error is set" read as the code tests it
    (truthiness); on every snapshot the provider exposes it holds as well with
    "error is set" read as "error is not null". *)
Theorem route_gate_priority :
  (forall ctx, Gate.rendered (Gate.gate_state ctx) = Gate.gate_spec truthy_str ctx)
  /\
  (forall st,
      Gate.rendered (Gate.gate_state (Hooks.value st))
      = Gate.gate_spec is_some (Hooks.value st))
  /\
  (forall ctx outer,
      Gate.ProtectedRoute (ctx :: outer) = Returned (Gate.gate_spec truthy_str ctx))
  /\
  (forall ctx,
      Gate.rendered (Gate.gate_state ctx) = Gate.Children <->
      Gate.gate_state ctx = Gate.authenticated).
Proof.
  assert (H1 : forall ctx,
             Gate.rendered (Gate.gate_state ctx) = Gate.gate_spec truthy_str ctx).
  { intro ctx. unfold Gate.gate_state, Gate.gate_spec.
    destruct (Hooks.AuthContextType.loading ctx); [reflexivity |].
    destruct (truthy_str (Hooks.AuthContextType.error ctx)
              && negb (is_some (Hooks.AuthContextType.user ctx)));
      [reflexivity |].
    destruct (negb (Hooks.AuthContextType.isAuthenticated ctx)); [reflexivity |].
    destruct (Hooks.AuthContextType.error ctx) as [e |]; [| reflexivity].
    destruct (e =? NO_PROFILE); reflexivity. }
  split; [exact H1 | split; [| split]].
  - intros [u p l e]. rewrite H1. unfold Gate.gate_spec, Hooks.value. simpl.
    destruct l; [reflexivity |].
    destruct u as [u |]; simpl.
    + now rewrite !andb_false_r.
    + rewrite !andb_true_r.
      destruct (truthy_str e), (is_some e); reflexivity.
  - intros ctx outer. unfold Gate.ProtectedRoute. simpl. now rewrite H1.
  - intro ctx. destruct (Gate.gate_state ctx); simpl; split; intro H;
      try reflexivity; discriminate H.
Qed.

(** ** The exposed snapshot *)

(** C9: on every snapshot the provider exposes, [isAuthenticated] is true
    exactly when [user] and [profile] are both non-null. *)
Theorem isAuthenticated_iff (st : Hooks.AuthState) :
  Hooks.AuthContextType.isAuthenticated (Hooks.value st) = true <->
  (Hooks.AuthContextType.user (Hooks.value st) <> None /\
   Hooks.AuthContextType.profile (Hooks.value st) <> None).
Proof.
  destruct st as [[u |] [p |] l e]; simpl; split;
    try (intro H; discriminate H);
    try (intros [Hu Hp]; exfalso; (now apply Hu) || (now apply Hp)).
  - intros _. split; discriminate.
  - reflexivity.
Qed.

(** C10: outside any provider [useAuth] throws an [Error] whose message is
    "useAuth must be used within an AuthProvider"; under a provider it returns
    that provider's value, snapshot and actions included.  Both
    src/unnamed/part_000 and src/context/AuthContext.tsx behave so. *)
Theorem useAuth_requires_provider :
  (exists e, Hooks.useAuth [] = Thrown e
             /\ message e = "useAuth must be used within an AuthProvider")
  /\ (forall st outer,
         Hooks.useAuth (Hooks.value st :: outer) = Returned (Hooks.value st)
         /\ Hooks.AuthContextType.signOut (Hooks.value st) = Hooks.signOut
         /\ Hooks.AuthContextType.signIn (Hooks.value st) = Hooks.signIn
         /\ Hooks.AuthContextType.signUp (Hooks.value st) = Hooks.signUp)
  /\ (exists e, Legacy.useAuth [] = Thrown e
                /\ message e = "useAuth must be used within an AuthProvider")
  /\ (forall ctx outer, Legacy.useAuth (ctx :: outer) = Returned ctx).
Proof.
  split; [| split; [| split]].
  - eexists; split; reflexivity.
  - intros; repeat split.
  - eexists; split; reflexivity.
  - reflexivity.
Qed.

(** ** Further scenarios of the design *)

(** X4: sign-in only talks to the identity provider: one request, no table is
    read, and the [user] and [profile] cells are left to the synchronizer. *)
Theorem signIn_fetches_no_profile (remote : Remote) (email password : string)
        (w : World Hooks.AuthState) :
  let w' := snd (run remote (Hooks.signIn email password) w) in
  log w' = (log w ++ [Req (SignInWithPassword email password)])%list
  /\ Hooks.user (state w') = Hooks.user (state w)
  /\ Hooks.profile (state w') = Hooks.profile (state w).
Proof.
  cbv zeta. unfold Hooks.signIn. simpl.
  destruct (signInWithPassword remote email password)
    as [[u0 sess [e|]] | e]; simpl; repeat split.
Qed.

(** X5: every auth action leaves [loading] false when it ends, thrown or
    not. *)
Theorem actions_end_not_loading (remote : Remote) (w : World Hooks.AuthState) :
  (forall now email password userData,
      Hooks.loading (state (snd (run remote (Hooks.signUp now email password userData) w)))
      = false)
  /\ (forall email password,
      Hooks.loading (state (snd (run remote (Hooks.signIn email password) w))) = false)
  /\ Hooks.loading (state (snd (run remote Hooks.signOut w))) = false.
Proof.
  split; [| split].
  - intros. unfold Hooks.signUp. rewrite !run_bind. simpl.
    rewrite run_try_finally.
    match goal with
    | |- context [run remote (try_catch ?p ?h) ?w0] =>
        destruct (run remote (try_catch p h) w0) as [[d | e] w1]
    end; reflexivity.
  - intros. unfold Hooks.signIn. rewrite !run_bind. simpl.
    rewrite run_try_finally.
    match goal with
    | |- context [run remote (try_catch ?p ?h) ?w0] =>
        destruct (run remote (try_catch p h) w0) as [[d | e] w1]
    end; reflexivity.
  - unfold Hooks.signOut. rewrite !run_bind. simpl.
    rewrite run_try_finally.
    match goal with
    | |- context [run remote (try_catch ?p ?h) ?w0] =>
        destruct (run remote (try_catch p h) w0) as [[d | e] w1]
    end; reflexivity.
Qed.

(** ** Invariants of programs and of the scheduler *)

Section SafetyLaws.

Context {St : Type} (I : St -> Prop) (Q : Request -> Prop).

Lemma safe_bind {A B} (p : Prog St A) (f : A -> Prog St B) :
  safe I Q p -> (forall a, safe I Q (f a)) -> safe I Q (bind p f).
Proof.
  intros Hp Hf.
  induction p as [a | e | g k IH | k IH | R c k IH]; simpl in *.
  - apply Hf.
  - exact Logic.I.
  - destruct Hp as [Hg Hk]. split; [exact Hg | now apply IH].
  - intro m. now apply IH.
  - destruct Hp as [Hq Hk]. split; [exact Hq |]. intro r. now apply IH.
Qed.

Lemma safe_try_catch {A} (p : Prog St A) (h : Err -> Prog St A) :
  safe I Q p -> (forall e, safe I Q (h e)) -> safe I Q (try_catch p h).
Proof.
  intros Hp Hh.
  induction p as [a | e | g k IH | k IH | R c k IH]; simpl in *.
  - exact Logic.I.
  - apply Hh.
  - destruct Hp as [Hg Hk]. split; [exact Hg | now apply IH].
  - intro m. now apply IH.
  - destruct Hp as [Hq Hk]. split; [exact Hq |]. intro r. now apply IH.
Qed.

Lemma safe_try_finally {A} (p : Prog St A) (fin : Prog St unit) :
  safe I Q p -> safe I Q fin -> safe I Q (try_finally p fin).
Proof.
  intros Hp Hfin.
  induction p as [a | e | g k IH | k IH | R c k IH]; simpl in *.
  - apply safe_bind; [exact Hfin | intros; exact Logic.I].
  - apply safe_bind; [exact Hfin | intros; exact Logic.I].
  - destruct Hp as [Hg Hk]. split; [exact Hg | now apply IH].
  - intro m. now apply IH.
  - destruct Hp as [Hq Hk]. split; [exact Hq |]. intro r. now apply IH.
Qed.

Lemma safe_await {R} (c : Call R) : Q (Req c) -> safe I Q (await c).
Proof.
  intro Hq. simpl. split; [exact Hq |]. intros [r | e]; exact Logic.I.
Qed.

(** A safe program run to completion keeps the state property and only
    logs allowed requests. *)
Lemma run_safe {A} (remote : Remote) (p : Prog St A) (w : World St) :
  safe I Q p -> world_ok I Q w -> world_ok I Q (snd (run remote p w)).
Proof.
  revert w.
  induction p as [a | e | g k IH | k IH | R c k IH]; intros w Hp Hw; simpl in *.
  - exact Hw.
  - exact Hw.
  - destruct Hp as [Hg Hk]. apply IH; [exact Hk |].
    destruct Hw as [Hi Hl]. split; [now apply Hg | exact Hl].
  - now apply IH.
  - destruct Hp as [Hq Hk]. apply IH; [apply Hk |].
    destruct Hw as [Hi Hl]. split; [exact Hi |].
    simpl. apply Forall_app. split; [exact Hl | now constructor].
Qed.

(** The same for the synchronous prefix; what is left pending is safe. *)
Lemma advance_safe (p : Prog St unit) (w : World St) :
  safe I Q p -> world_ok I Q w ->
  world_ok I Q (fst (advance p w)) /\
  match snd (advance p w) with
  | Some q => safe I Q q
  | None => True
  end.
Proof.
  revert w.
  induction p as [a | e | g k IH | k IH | R c k IH]; intros w Hp Hw; simpl in *.
  - split; [exact Hw | exact Logic.I].
  - split; [exact Hw | exact Logic.I].
  - destruct Hp as [Hg Hk]. apply IH; [exact Hk |].
    destruct Hw as [Hi Hl]. split; [now apply Hg | exact Hl].
  - now apply IH.
  - destruct Hp as [Hq Hk]. split.
    + destruct Hw as [Hi Hl]. split; [exact Hi |].
      simpl. apply Forall_app. split; [exact Hl | now constructor].
    + split; assumption.
Qed.

Lemma resume_safe (remote : Remote) (p : Prog St unit) :
  safe I Q p -> safe I Q (resume remote p).
Proof.
  destruct p as [a | e | g k | k | R c k]; simpl; try (intro H; exact H).
  intros [_ Hk]. apply Hk.
Qed.

End SafetyLaws.

Lemma safe_weaken {St A} (I : St -> Prop) (Q Q' : Request -> Prop) (p : Prog St A) :
  (forall r, Q r -> Q' r) -> safe I Q p -> safe I Q' p.
Proof.
  intros HQ.
  induction p as [a | e | g k IH | k IH | R c k IH]; simpl; auto.
  - intros [Hg Hk]. split; auto.
  - intros [Hq Hk]. split; auto.
Qed.

Lemma read_only_client (r : Request) : read_only r -> client_request r.
Proof.
  destruct r as [R c]. destruct c; simpl; auto; intros [].
Qed.

(** The [switch] of the profile fetch yields a table only for the three
    roles, and then the table of the mapping. *)
Lemma tableName_some (role : JsVal) (t : string) :
  Hooks.tableName role = Some t ->
  exists r, role = JStr (role_name r) /\ t = role_table r.
Proof.
  unfold Hooks.tableName, is_str.
  destruct role as [ | | b | n | s]; try discriminate.
  destruct (s =? "faculty") eqn:Ef.
  { intro H; inversion H. apply String.eqb_eq in Ef. subst.
    exists Faculty. split; reflexivity. }
  destruct (s =? "student") eqn:Es.
  { intro H; inversion H. apply String.eqb_eq in Es. subst.
    exists Student. split; reflexivity. }
  destruct (s =? "parent") eqn:Ep.
  { intro H; inversion H. apply String.eqb_eq in Ep. subst.
    exists Parent. split; reflexivity. }
  discriminate.
Qed.

Section HooksSafety.

Variable Q : Request -> Prop.

Lemma setUser_safe u : safe profile_role_known Q (Hooks.setUser u).
Proof. simpl. split; [intros s H; exact H | exact I]. Qed.

Lemma setLoading_safe b : safe profile_role_known Q (Hooks.setLoading b).
Proof. simpl. split; [intros s H; exact H | exact I]. Qed.

Lemma setError_safe e : safe profile_role_known Q (Hooks.setError e).
Proof. simpl. split; [intros s H; exact H | exact I]. Qed.

Lemma setProfile_none_safe : safe profile_role_known Q (Hooks.setProfile None).
Proof. simpl. split; [intros s H; exact I | exact I]. Qed.

Lemma setProfile_some_safe r data :
  safe profile_role_known Q
       (Hooks.setProfile (Some (Hooks.userProfile_of (JStr (role_name r)) data))).
Proof.
  simpl. split; [| exact I]. intros s _. unfold profile_role_known; simpl.
  now exists r.
Qed.

Lemma fetchUserProfile_safe (u : User) :
  (forall r id, Q (Req (Select (role_table r) id))) ->
  safe profile_role_known Q (Hooks.fetchUserProfile u).
Proof.
  intro HQ. unfold Hooks.fetchUserProfile.
  apply safe_try_catch.
  - cbv zeta. destruct (negb (truthy (role_claim u))); [apply setError_safe |].
    destruct (Hooks.tableName (role_claim u)) as [t |] eqn:Et;
      [| apply setError_safe].
    destruct (tableName_some _ _ Et) as (r & Hr & Ht). rewrite Hr, Ht.
    apply safe_bind; [apply safe_await, HQ |].
    intros [d [pe |]].
    + cbn beta iota delta [q_error q_data].
      destruct (is_str (code pe) "PGRST116"); [| exact I].
      apply safe_bind; [apply setError_safe | intros; apply setProfile_none_safe].
    + cbn beta iota delta [q_error q_data].
      destruct d as [data |]; [| exact I].
      apply safe_bind; [apply setProfile_some_safe | intros; apply setError_safe].
  - intro e. apply safe_bind; [apply setError_safe | intros; apply setProfile_none_safe].
Qed.

Lemma initializeAuth_safe :
  Q (Req GetSession) ->
  (forall r id, Q (Req (Select (role_table r) id))) ->
  safe profile_role_known Q Hooks.initializeAuth.
Proof.
  intros Hg HQ. unfold Hooks.initializeAuth.
  apply safe_try_catch.
  - apply safe_bind; [apply safe_await, Hg |].
    intros [sess [e |]]; cbn beta iota delta [sr_error sr_session]; [exact I |].
    apply safe_bind; [simpl; intro; exact I |].
    intros [|]; [| exact I].
    apply safe_bind; [| intros; apply setLoading_safe].
    destruct (session_user sess) as [u |].
    + apply safe_bind; [apply setUser_safe | intros; now apply fetchUserProfile_safe].
    + apply safe_bind; [apply setUser_safe | intros; apply setProfile_none_safe].
  - intro e. apply safe_bind; [simpl; intro; exact I |].
    intros [|]; [| exact I].
    apply safe_bind; [apply setError_safe | intros; apply setLoading_safe].
Qed.

Lemma onAuthStateChange_safe (event : string) (session : option Session) :
  (forall r id, Q (Req (Select (role_table r) id))) ->
  safe profile_role_known Q (Hooks.onAuthStateChange event session).
Proof.
  intro HQ. unfold Hooks.onAuthStateChange.
  apply safe_bind; [simpl; intro; exact I |].
  intros [|]; simpl negb; cbv iota; [| exact I].
  apply safe_bind; [| intros; apply setLoading_safe].
  assert (Hout : safe profile_role_known Q
                   (if event =? "SIGNED_OUT"
                    then Hooks.setUser None ;; Hooks.setProfile None ;; Hooks.setError None
                    else Ret tt)).
  { destruct (event =? "SIGNED_OUT"); [| exact I].
    apply safe_bind; [apply setUser_safe |]. intros.
    apply safe_bind; [apply setProfile_none_safe | intros; apply setError_safe]. }
  destruct (event =? "SIGNED_IN"); [| exact Hout].
  destruct (session_user session) as [u |]; [| exact Hout].
  apply safe_bind; [apply setUser_safe |]. intros.
  apply safe_bind; [apply setError_safe | intros; now apply fetchUserProfile_safe].
Qed.

End HooksSafety.

Lemma signUp_tableName_cases (role : string) :
  is_role_table (Hooks.signUp_tableName role) \/ Hooks.signUp_tableName role = "".
Proof.
  unfold Hooks.signUp_tableName.
  destruct (role =? "faculty"); [left; now exists Faculty |].
  destruct (role =? "student"); [left; now exists Student |].
  destruct (role =? "parent"); [left; now exists Parent |].
  now right.
Qed.

Lemma detached_safe {A} (Q : Request -> Prop) (p : Prog Hooks.AuthState A) :
  safe profile_role_known Q p -> safe profile_role_known Q (Client.detached p).
Proof.
  intro Hp. unfold Client.detached. apply safe_bind; [exact Hp | intros; exact I].
Qed.

Lemma signUp_safe now email password userData :
  safe profile_role_known client_request
       (Hooks.signUp now email password userData).
Proof.
  unfold Hooks.signUp.
  apply safe_bind; [apply setLoading_safe |]. intros _.
  apply safe_bind; [apply setError_safe |]. intros _.
  apply safe_try_finally; [| apply setLoading_safe].
  apply safe_try_catch.
  - apply safe_bind; [apply safe_await; simpl; discriminate |].
    intros [u sess [e |]]; cbn beta iota delta [ar_error ar_user]; [exact I |].
    apply safe_bind; [| intros; exact I].
    destruct u as [u |]; [| exact I].
    apply safe_bind; [apply safe_await; simpl; apply signUp_tableName_cases |].
    intros [[e |]]; exact I.
  - intro e. apply safe_bind; [apply setError_safe | intros; exact I].
Qed.

Lemma signIn_safe email password :
  safe profile_role_known client_request (Hooks.signIn email password).
Proof.
  unfold Hooks.signIn.
  apply safe_bind; [apply setLoading_safe |]. intros _.
  apply safe_bind; [apply setError_safe |]. intros _.
  apply safe_try_finally; [| apply setLoading_safe].
  apply safe_try_catch.
  - apply safe_bind; [apply safe_await; exact I |].
    intros [u sess [e |]]; exact I.
  - intro e. apply safe_bind; [apply setError_safe | intros; exact I].
Qed.

Lemma signOut_safe : safe profile_role_known client_request Hooks.signOut.
Proof.
  unfold Hooks.signOut.
  apply safe_bind; [apply setLoading_safe |]. intros _.
  apply safe_try_finally; [| apply setLoading_safe].
  apply safe_try_catch.
  - apply safe_bind; [apply safe_await; exact I |].
    intros [[e |]]; cbn beta iota delta [w_error]; [exact I |].
    apply safe_bind; [apply setUser_safe |]. intros _.
    apply safe_bind; [apply setProfile_none_safe | intros; apply setError_safe].
  - intro e. apply setError_safe.
Qed.

Section SchedulerInvariant.

Variable Q : Request -> Prop.
Hypothesis Q_session : Q (Req GetSession).
Hypothesis Q_select : forall r id, Q (Req (Select (role_table r) id)).

Lemma remove_nth_Forall {A} (P : A -> Prop) (i : nat) (l : list A) :
  Forall P l -> Forall P (Sync.remove_nth i l).
Proof.
  intro H. revert i. induction H as [| x l Hx Hl IH]; intro i.
  - destruct i; constructor.
  - destruct i; simpl; [exact Hl | constructor; [exact Hx | apply IH]].
Qed.

Lemma spawn_ok (p : Prog Hooks.AuthState unit) (s : Sync.Sys) (sub : bool)
      (rest : list (Prog Hooks.AuthState unit)) :
  safe profile_role_known Q p ->
  world_ok profile_role_known Q (Sync.world s) ->
  Forall (safe profile_role_known Q) rest ->
  sys_ok profile_role_known Q (Sync.spawn p s sub rest).
Proof.
  intros Hp Hw Hrest. unfold Sync.spawn.
  destruct (advance_safe profile_role_known Q p (Sync.world s) Hp Hw) as [Hw' Hq].
  destruct (advance p (Sync.world s)) as [w' pending]. simpl in *.
  split; [exact Hw' |]. simpl.
  apply Forall_app. split; [exact Hrest |].
  destruct pending as [q |]; [constructor; [exact Hq | constructor] | constructor].
Qed.

Lemma sync_step_ok (remote : Remote) (a : Sync.Action) (s : Sync.Sys) :
  sys_ok profile_role_known Q s ->
  sys_ok profile_role_known Q (Sync.step remote a s).
Proof.
  intros [Hw Hin]. destruct a as [| event session | i |]; simpl.
  - apply spawn_ok; [now apply initializeAuth_safe | exact Hw | exact Hin].
  - destruct (Sync.subscribed s); [| now split].
    apply spawn_ok; [now apply onAuthStateChange_safe | exact Hw | exact Hin].
  - destruct (nth_error (Sync.inflight s) i) as [p |] eqn:Ep; [| now split].
    apply spawn_ok; [| exact Hw | now apply remove_nth_Forall].
    apply resume_safe.
    rewrite Forall_forall in Hin. apply Hin. eapply nth_error_In. exact Ep.
  - split; [exact Hw | exact Hin].
Qed.

Lemma sync_exec_ok (remote : Remote) (trace : list Sync.Action) (s : Sync.Sys) :
  sys_ok profile_role_known Q s ->
  sys_ok profile_role_known Q (Sync.exec remote trace s).
Proof.
  revert s. induction trace as [| a trace IH]; intros s Hs; simpl.
  - exact Hs.
  - apply IH. now apply sync_step_ok.
Qed.

End SchedulerInvariant.

Lemma before_mount_ok (Q : Request -> Prop) :
  sys_ok profile_role_known Q Sync.before_mount.
Proof.
  split; [split; [exact I | constructor] | constructor].
Qed.

Lemma client_step_ok (remote : Remote) (a : Client.Action) (s : Sync.Sys) :
  sys_ok profile_role_known client_request s ->
  sys_ok profile_role_known client_request (Client.step remote a s).
Proof.
  intros Hs. destruct a as [a' | now email password userData | email password |];
    simpl.
  - apply sync_step_ok; [exact I | | exact Hs].
    intros r id. simpl. now exists r.
  - destruct Hs as [Hw Hin].
    apply spawn_ok; [apply detached_safe, signUp_safe | exact Hw | exact Hin].
  - destruct Hs as [Hw Hin].
    apply spawn_ok; [apply detached_safe, signIn_safe | exact Hw | exact Hin].
  - destruct Hs as [Hw Hin].
    apply spawn_ok; [apply detached_safe, signOut_safe | exact Hw | exact Hin].
Qed.

Lemma client_exec_ok (remote : Remote) (trace : list Client.Action) (s : Sync.Sys) :
  sys_ok profile_role_known client_request s ->
  sys_ok profile_role_known client_request (Client.exec remote trace s).
Proof.
  revert s. induction trace as [| a trace IH]; intros s Hs; simpl.
  - exact Hs.
  - apply IH. now apply client_step_ok.
Qed.

(** X8: the synchronizer never writes to the service.  Whatever is mounted,
    torn down, pushed or settled, in whatever order and whatever the service
    answers, every request the provider's effect has issued is the session
    check or a select on one of the three role tables. *)
Theorem synchronizer_is_read_only (remote : Remote) (trace : list Sync.Action) :
  Forall read_only (log (Sync.world (Sync.exec remote trace Sync.before_mount))).
Proof.
  destruct (sync_exec_ok read_only I
              (fun r id => ex_intro _ r eq_refl)
              remote trace Sync.before_mount (before_mount_ok read_only))
    as [[_ Hlog] _].
  exact Hlog.
Qed.

Lemma reachable_profile_and_requests_aux
      (remote : Remote) (trace : list Client.Action) :
  profile_role_known (state (Sync.world (Client.exec remote trace Sync.before_mount)))
  /\ Forall client_request
            (log (Sync.world (Client.exec remote trace Sync.before_mount))).
Proof.
  destruct (client_exec_ok remote trace Sync.before_mount
              (before_mount_ok client_request)) as [[Hi Hlog] _].
  split; assumption.
Qed.

(** X9: in every state the provider can reach, with any interleaving of its
    effect and of calls to sign-up, sign-in and sign-out, the profile cell is
    either null or a profile whose role is faculty, student or parent; and
    every request issued is the session check, a select on a role table, one
    of the three identity calls, or an insert into a role table (or into the
    table named by the empty string, which only a sign-up with a role outside
    the three can name). *)
Theorem reachable_profile_and_requests
        (remote : Remote) (trace : list Client.Action) :
  let s := Client.exec remote trace Sync.before_mount in
  profile_role_known (state (Sync.world s))
  /\ Forall client_request (log (Sync.world s)).
Proof.
  destruct (client_exec_ok remote trace Sync.before_mount
              (before_mount_ok client_request)) as [[Hi Hlog] _].
  split; assumption.
Qed.

(** ** What the application shows *)

Lemma app_screen_aux (st : Hooks.AuthState) :
  Router.App st = Returned (screen_of st)
  /\ screen_of st <> Router.Blank
  /\ Router.App2 st
     = Returned (if Hooks.loading st then Router.SpinnerWithCaption else screen_of st).
Proof.
  assert (H : Router.App st = Returned (screen_of st)).
  { destruct st as [u p l e]. unfold Router.App, Router.gated_router, screen_of.
    unfold Gate.ProtectedRoute, Router.DashboardRouter. simpl.
    unfold Gate.gate_state, Router.route. simpl.
    destruct l; [reflexivity |].
    destruct u as [u |], p as [p |]; simpl;
      rewrite ?andb_true_r, ?andb_false_r;
      try (destruct (truthy_str e); reflexivity).
    destruct e as [e |]; [| reflexivity].
    destruct (e =? NO_PROFILE); reflexivity. }
  split; [exact H | split].
  - unfold screen_of. destruct (Hooks.loading st); [discriminate |].
    destruct (Hooks.user st), (Hooks.profile st); try discriminate.
    destruct (match Hooks.error st with Some e => e =? NO_PROFILE | None => false end);
      discriminate.
  - unfold Router.App2, Router.AppContent. simpl.
    destruct (Hooks.loading st) eqn:El; [reflexivity |].
    exact H.
Qed.

(** X10: under the provider, the gate and the router together show a
    function of the four state cells alone: the spinner while loading;
    otherwise the login form unless both [user] and [profile] are set (the
    error cell plays no part in that); otherwise the not-found notice when the
    error is the distinguished message, and else the dashboard of the
    profile's role.  They never throw, and the router's own [null] guard is
    never taken.  The second revision of [App] differs only in the spinner it
    shows while loading. *)
Theorem app_screen_of_state (st : Hooks.AuthState) :
  Router.App st = Returned (screen_of st)
  /\ screen_of st <> Router.Blank
  /\ Router.App2 st
     = Returned (if Hooks.loading st then Router.SpinnerWithCaption else screen_of st).
Proof. exact (app_screen_aux st). Qed.

Lemma renderDashboard_known (p : Hooks.UserProfile) (r : Role) :
  Hooks.role p = JStr (role_name r) -> Router.renderDashboard p = dashboard_of r.
Proof.
  intro H. unfold Router.renderDashboard. rewrite H. destruct r; reflexivity.
Qed.

(** X11: in every state the provider can reach (any service, any
    interleaving of its effect and of the auth actions) the application shows
    the spinner, the login form, the not-found notice or one of the three
    dashboards: never a blank page, never the "Unknown Role" notice. *)
Theorem reachable_screens (remote : Remote) (trace : list Client.Action) :
  let st := state (Sync.world (Client.exec remote trace Sync.before_mount)) in
  exists scr,
    Router.App st = Returned scr
    /\ (scr = Router.Spinner \/ scr = Router.LoginForm
        \/ scr = Router.ProfileNotFoundNotice
        \/ exists r, scr = Router.Page (dashboard_of r)).
Proof.
  intro st.
  destruct (reachable_profile_and_requests_aux remote trace) as [Hk _].
  fold st in Hk.
  exists (screen_of st). split; [apply app_screen_aux |].
  unfold screen_of. destruct (Hooks.loading st); [now left |].
  unfold profile_role_known in Hk.
  destruct (Hooks.user st); [| right; now left].
  destruct (Hooks.profile st) as [p |]; [| right; now left].
  destruct (match Hooks.error st with Some e => e =? NO_PROFILE | None => false end);
    [right; right; now left |].
  destruct Hk as [r Hr]. right; right; right. exists r.
  now rewrite (renderDashboard_known p r Hr).
Qed.

(** ** The mount-time session check *)

Lemma session_restore_aux (remote : Remote) :
  let s := Sync.exec remote [Sync.Mount; Sync.Settle 0; Sync.Settle 0]
                     Sync.before_mount in
  state (Sync.world s) = restored remote
  /\ Sync.inflight s = []
  /\ Hooks.loading (state (Sync.world s)) = false.
Proof.
  cbv zeta. unfold restored, Sync.exec. simpl. unfold Sync.spawn. simpl.
  destruct (getSession remote) as [[sess [e |]] | e]; simpl;
    try (repeat split; reflexivity).
  destruct (session_user sess) as [u |]; simpl;
    try (repeat split; reflexivity).
  unfold Hooks.fetchUserProfile. cbv zeta.
  destruct (truthy (role_claim u)); simpl;
    try (repeat split; reflexivity).
  destruct (Hooks.tableName (role_claim u)) as [t |]; simpl;
    try (repeat split; reflexivity).
  unfold classify.
  destruct (select remote t (uid u)) as [[d [pe |]] | pe]; simpl.
  - destruct (is_str (code pe) "PGRST116"); simpl; repeat split; reflexivity.
  - destruct d as [data |]; simpl; repeat split; reflexivity.
  - repeat split; reflexivity.
Qed.

(** X12: once the session check and the profile query it may start have
    settled (and the provider is still mounted), nothing is left in flight
    and [loading] is false, whatever the service answered: a failed session
    check leaves the error's message; no session leaves all cells null; a
    session without a usable role claim leaves the user and the role error;
    otherwise the profile query's outcome decides profile and error. *)
Theorem session_restore_settles (remote : Remote) :
  let s := Sync.exec remote [Sync.Mount; Sync.Settle 0; Sync.Settle 0]
                     Sync.before_mount in
  state (Sync.world s) = restored remote
  /\ Sync.inflight s = []
  /\ Hooks.loading (state (Sync.world s)) = false.
Proof. exact (session_restore_aux remote). Qed.

(** X3: when the service holds a session for a user whose role claim is
    faculty, student or parent, and the role's table holds a row for the
    user's id, then after the session check and the profile query the
    snapshot holds that user and the profile built from the row, is
    authenticated, and the application shows the dashboard of that role. *)
Theorem known_session_reaches_dashboard
        (remote : Remote) (id : string) (fn : JsVal) (r : Role) (row : JsObj) :
  getSession remote
  = Fulfilled {| sr_session := session_of (user_with_role id fn r);
                 sr_error := None |} ->
  select remote (role_table r) id
  = Fulfilled {| q_data := Some row; q_error := None |} ->
  let st := state (Sync.world
                     (Sync.exec remote [Sync.Mount; Sync.Settle 0; Sync.Settle 0]
                                Sync.before_mount)) in
  st = {| Hooks.user := Some (user_with_role id fn r);
          Hooks.profile := Some (Hooks.userProfile_of (JStr (role_name r)) row);
          Hooks.loading := false;
          Hooks.error := None |}
  /\ Hooks.AuthContextType.isAuthenticated (Hooks.value st) = true
  /\ Router.App st = Returned (Router.Page (dashboard_of r)).
Proof.
  intros Hs Hq st.
  assert (Hst : st = {| Hooks.user := Some (user_with_role id fn r);
                        Hooks.profile :=
                          Some (Hooks.userProfile_of (JStr (role_name r)) row);
                        Hooks.loading := false;
                        Hooks.error := None |}).
  { subst st. destruct (session_restore_aux remote) as [H _]. cbv zeta in H.
    rewrite H. unfold restored. rewrite Hs.
    cbn beta iota delta [sr_error sr_session session_of session_user s_user].
    destruct (known_role_table r) as [Ht Hn].
    change (role_claim (user_with_role id fn r)) with (JStr (role_name r)).
    rewrite Ht, Hn. cbn beta iota delta [negb uid user_with_role].
    rewrite Hq. reflexivity. }
  split; [exact Hst | split].
  - rewrite Hst. reflexivity.
  - destruct (app_screen_aux st) as [Happ _]. rewrite Happ, Hst.
    unfold screen_of. simpl.
    now rewrite (renderDashboard_known
                   (Hooks.userProfile_of (JStr (role_name r)) row) r eq_refl).
Qed.

(** The scenario of the design: Asha, a student with a row in [students]. *)
Lemma known_session_reaches_dashboard_witness :
  let st := state (Sync.world (Sync.exec school asha_loaded Sync.before_mount)) in
  st = asha_signed_in
  /\ Hooks.AuthContextType.isAuthenticated (Hooks.value st) = true
  /\ Router.App st = Returned (Router.Page Router.StudentDashboard).
Proof.
  exact (known_session_reaches_dashboard school "U1" (JStr "Asha") Student
           asha_row eq_refl eq_refl).
Defined.

(** ** The not-found path and the gate *)

(** X13: a profile query answered "no row" never brings up the gate's
    "Profile Not Found" notice.  The fetch stores the distinguished message
    and clears the profile in one go, so the snapshot is unauthenticated and
    the application shows the login form (or the spinner, if the fetch ran
    while [loading] was still set). *)
Theorem not_found_shows_login_form
        (remote : Remote) (id : string) (fn : JsVal) (r : Role)
        (w : World Hooks.AuthState) (d : option JsObj) (pe : Err) :
  select remote (role_table r) id = Fulfilled {| q_data := d; q_error := Some pe |} ->
  code pe = JStr "PGRST116" ->
  let st' := state (snd (run remote (Hooks.fetchUserProfile (user_with_role id fn r)) w)) in
  Hooks.error st' = Some NO_PROFILE
  /\ Router.App st'
     = Returned (if Hooks.loading (state w) then Router.Spinner else Router.LoginForm).
Proof.
  intros Hq Hc st'. subst st'.
  destruct (app_screen_aux
              (state (snd (run remote
                             (Hooks.fetchUserProfile (user_with_role id fn r)) w))))
    as [Happ _].
  rewrite Happ. rewrite fetch_known_role. simpl.
  rewrite Hq. unfold classify. simpl. rewrite Hc. simpl.
  split; [reflexivity |].
  unfold screen_of. simpl.
  destruct (Hooks.loading (state w)); [reflexivity |].
  destruct (Hooks.user (state w)); reflexivity.
Qed.

Lemma not_found_shows_login_form_witness :
  Router.App (state (snd (run school (Hooks.fetchUserProfile meena)
                              (world_of asha_signed_in))))
  = Returned Router.LoginForm.
Proof.
  exact (proj2 (not_found_shows_login_form school "U4" (JStr "Meena") Parent
                  (world_of asha_signed_in) None no_rows eq_refl eq_refl)).
Defined.

(** ** Rows written by sign-up, read by the profile fetch *)

(** X14: the row a sign-up inserts reads back as the profile one expects.
    If the role table answers the profile query with the row that [signUp] of
    src/unnamed/part_000, or [signup] of src/unnamed/part_004, inserted for
    this user, the profile holds the user's id, the role of the session, the
    name and e-mail address typed at sign-up (the name also when the row has
    only [full_name], or when it is empty), and no roll number, standard,
    class or linked roll. *)
Theorem signUp_row_reads_back
        (remote : Remote) (now id : string) (fn : JsVal) (r : Role)
        (fullname mail pw : string) (row : JsObj) (w : World Hooks.AuthState) :
  let u := user_with_role id fn r in
  row = Hooks.insertData now u
          {| Hooks.sd_role := role_name r; Hooks.sd_full_name := fullname;
             Hooks.sd_email := mail; Hooks.sd_password := pw |}
  \/ row = Context2.userData_of now u
             {| Context2.role := role_name r; Context2.full_name := fullname;
                Context2.email := mail; Context2.password := pw |} ->
  select remote (role_table r) id = Fulfilled {| q_data := Some row; q_error := None |} ->
  Hooks.profile (state (snd (run remote (Hooks.fetchUserProfile u) w)))
  = Some {| Hooks.id := JStr id;
            Hooks.role := JStr (role_name r);
            Hooks.name := JStr fullname;
            Hooks.email := JStr mail;
            Hooks.roll_no := JUndefined;
            Hooks.standard := JUndefined;
            Hooks.class := JUndefined;
            Hooks.linked_student_roll := JUndefined |}.
Proof.
  intros u Hrow Hq. subst u. rewrite fetch_known_role. simpl.
  rewrite Hq. unfold classify. simpl.
  unfold Hooks.userProfile_of.
  destruct Hrow as [-> | ->]; simpl; unfold js_or; simpl.
  - destruct (fullname =? ""); reflexivity.
  - reflexivity.
Qed.

Lemma signUp_row_reads_back_witness :
  let remote :=
    {| getSession := getSession school;
       select := fun _ _ =>
         Fulfilled {| q_data := Some (Hooks.insertData "2024-06-01T08:00:00.000Z"
                                        (user_with_role "U9" (JStr "Ravi") Faculty)
                                        faculty_form);
                      q_error := None |};
       insert := insert school;
       auth_signUp := auth_signUp school;
       signInWithPassword := signInWithPassword school;
       auth_signOut := auth_signOut school |} in
  Hooks.profile
    (state (snd (run remote
                   (Hooks.fetchUserProfile (user_with_role "U9" (JStr "Ravi") Faculty))
                   (world_of Hooks.initial))))
  = Some {| Hooks.id := JStr "U9";
            Hooks.role := JStr "faculty";
            Hooks.name := JStr "Ravi";
            Hooks.email := JStr "ravi@school.test";
            Hooks.roll_no := JUndefined;
            Hooks.standard := JUndefined;
            Hooks.class := JUndefined;
            Hooks.linked_student_roll := JUndefined |}.
Proof.
  intro remote.
  exact (signUp_row_reads_back remote "2024-06-01T08:00:00.000Z" "U9" (JStr "Ravi")
           Faculty "Ravi" "ravi@school.test" "s3cret!pass" _
           (world_of Hooks.initial) (or_introl eq_refl) eq_refl).
Defined.

(** ** Sign-up with a role outside the three *)

Lemma signUp_tableName_unknown (role : string) :
  (forall r, role <> role_name r) -> Hooks.signUp_tableName role = "".
Proof.
  intro H. unfold Hooks.signUp_tableName.
  destruct (role =? "faculty") eqn:Ef;
    [apply String.eqb_eq in Ef; now destruct (H Faculty) |].
  destruct (role =? "student") eqn:Es;
    [apply String.eqb_eq in Es; now destruct (H Student) |].
  destruct (role =? "parent") eqn:Ep;
    [apply String.eqb_eq in Ep; now destruct (H Parent) |].
  reflexivity.
Qed.

(** X15: the two sign-ups treat a role outside faculty, student and parent
    differently once the identity is created.  [signUp] of
    src/unnamed/part_000 has no default in its switch and goes on to insert
    the row into the table named by the empty string; [signup] of
    src/unnamed/part_004 inserts nothing and returns normally, leaving an
    identity without a row. *)
Theorem signUp_unknown_role :
  (forall remote now email password userData u0 sess (w : World Hooks.AuthState),
      (forall r, Hooks.sd_role userData <> role_name r) ->
      auth_signUp remote email password (Some (Hooks.signUp_metadata userData))
      = Fulfilled {| ar_user := Some u0; ar_session := sess; ar_error := None |} ->
      log (snd (run remote (Hooks.signUp now email password userData) w))
      = (log w ++ [Req (AuthSignUp email password
                          (Some (Hooks.signUp_metadata userData)));
                   Req (Insert "" (Hooks.insertData now u0 userData))])%list)
  /\
  (forall remote now signupData u0 sess (w : World Context2.AuthState),
      (forall r, Context2.role signupData <> role_name r) ->
      auth_signUp remote (Context2.email signupData) (Context2.password signupData)
        (Some {| md_full_name := JStr (Context2.full_name signupData);
                 md_role := JStr (Context2.role signupData) |})
      = Fulfilled {| ar_user := Some u0; ar_session := sess; ar_error := None |} ->
      run remote (Context2.signup now signupData) w
      = (Returned tt,
         issue (AuthSignUp (Context2.email signupData) (Context2.password signupData)
                  (Some {| md_full_name := JStr (Context2.full_name signupData);
                           md_role := JStr (Context2.role signupData) |})) w)).
Proof.
  split.
  - intros remote now email password userData u0 sess w Hr Hid.
    unfold Hooks.signUp. simpl. rewrite Hid. simpl.
    rewrite (signUp_tableName_unknown _ Hr).
    destruct (insert remote "" (Hooks.insertData now u0 userData)) as [[[e |]] | e];
      unfold update, issue; simpl; now rewrite <- app_assoc.
  - intros remote now signupData u0 sess w Hr Hid.
    unfold Context2.signup. simpl. rewrite Hid. simpl.
    destruct (Context2.role signupData =? "faculty") eqn:Ef;
      [apply String.eqb_eq in Ef; now destruct (Hr Faculty) |].
    destruct (Context2.role signupData =? "student") eqn:Es;
      [apply String.eqb_eq in Es; now destruct (Hr Student) |].
    destruct (Context2.role signupData =? "parent") eqn:Ep;
      [apply String.eqb_eq in Ep; now destruct (Hr Parent) |].
    reflexivity.
Qed.

Lemma signUp_unknown_role_witness :
  tables_of (log (snd (run school
                         (Hooks.signUp "2024-06-01T08:00:00.000Z" "office@school.test"
                                       "s3cret!pass" registrar_form)
                         (world_of Hooks.initial))))
  = [""]
  /\ fst (run school (Context2.signup "2024-06-01T08:00:00.000Z" registrar_form2)
              (world_of Context2.initial))
     = Returned tt.
Proof.
  destruct signUp_unknown_role as [H1 H2].
  assert (Hr : forall r, "admin" <> role_name r) by (intros []; discriminate).
  split.
  - rewrite (H1 school "2024-06-01T08:00:00.000Z" "office@school.test" "s3cret!pass"
               registrar_form
               {| uid := "U9";
                  user_metadata := Some (Hooks.signUp_metadata registrar_form) |}
               None (world_of Hooks.initial) Hr eq_refl).
    reflexivity.
  - rewrite (H2 school "2024-06-01T08:00:00.000Z" registrar_form2
               {| uid := "U9";
                  user_metadata :=
                    Some {| md_full_name := JStr "Registrar"; md_role := JStr "admin" |} |}
               None (world_of Context2.initial) Hr eq_refl).
    reflexivity.
Defined.

(** ** The profile fetch and session check of the two context providers *)

(** X16: the profile fetch of either context provider never throws and
    never clears the user.  It stores the row the service holds for the user
    (in src/unnamed/part_004 the row of the claimed role's table, tagged with
    the role claim, which overrides a [role] column of the row; in
    src/context/AuthContext.tsx the first row met in [faculty], [users],
    [parents]); when there is none, because the claim names no role, no table
    has a row, or a query rejects, every cell keeps its value, so the
    previous user stays in place. *)
Theorem context_fetch_keeps_user :
  (forall remote id role (w : World Context2.AuthState),
      run remote (Context2.fetchUserProfile id role) w
      = (Returned tt,
         {| state :=
              match context2_found remote id role with
              | Some row => {| Context2.user := Some row;
                               Context2.loading := Context2.loading (state w) |}
              | None => state w
              end;
            mounted := mounted w;
            log := match role_of_claim role with
                   | Some r => log w ++ [Req (Select (role_table r) id)]
                   | None => log w
                   end |}))
  /\
  (forall remote id role row,
      context2_found remote id role = Some row -> get row "role" = role)
  /\
  (forall remote id (w : World Legacy.AuthState),
      let out := run remote (Legacy.fetchUserProfile id) w in
      fst out = Returned tt
      /\ state (snd out)
         = match legacy_found remote id with
           | Some row => {| Legacy.user := Some row;
                            Legacy.loading := Legacy.loading (state w);
                            Legacy.toasts := Legacy.toasts (state w) |}
           | None => state w
           end).
Proof.
  split; [| split].
  - intros remote id role w.
    unfold Context2.fetchUserProfile, Context2.query_as, context2_found,
      role_of_claim.
    destruct w as [st m l].
    destruct (is_str role "faculty").
    { simpl. destruct (select remote "faculty" id) as [[[d |] pe] | e]; reflexivity. }
    destruct (is_str role "student").
    { simpl. destruct (select remote "students" id) as [[[d |] pe] | e]; reflexivity. }
    destruct (is_str role "parent").
    { simpl. destruct (select remote "parents" id) as [[[d |] pe] | e]; reflexivity. }
    reflexivity.
  - intros remote id role row. unfold context2_found, role_of_claim.
    assert (Hstr : forall lit, is_str role lit = true -> role = JStr lit).
    { intros lit H. destruct role as [ | | b | n | s0]; try discriminate H.
      simpl in H. apply String.eqb_eq in H. now subst. }
    destruct (is_str role "faculty") eqn:Ef.
    { rewrite (Hstr _ Ef). simpl.
      destruct (select remote "faculty" id) as [[[d |] pe] | e]; simpl;
        intro H; inversion H; reflexivity. }
    destruct (is_str role "student") eqn:Es.
    { rewrite (Hstr _ Es). simpl.
      destruct (select remote "students" id) as [[[d |] pe] | e]; simpl;
        intro H; inversion H; reflexivity. }
    destruct (is_str role "parent") eqn:Ep.
    { rewrite (Hstr _ Ep). simpl.
      destruct (select remote "parents" id) as [[[d |] pe] | e]; simpl;
        intro H; inversion H; reflexivity. }
    discriminate.
  - intros remote id w out. subst out.
    unfold Legacy.fetchUserProfile, legacy_found, probed. simpl.
    destruct w as [st m l].
    destruct (select remote "faculty" id) as [[[d1 |] e1] | e1]; simpl;
      try (split; reflexivity).
    destruct (select remote "users" id) as [[[d2 |] e2] | e2]; simpl;
      try (split; reflexivity).
    destruct (select remote "parents" id) as [[[d3 |] e3] | e3]; simpl;
      split; reflexivity.
Qed.

(** X17: the session check of either context provider never throws and
    always ends with [loading] false, whatever the service answers or
    rejects. *)
Theorem checkUser_always_finishes :
  (forall remote (w : World Legacy.AuthState),
      let out := run remote Legacy.checkUser w in
      fst out = Returned tt /\ Legacy.loading (state (snd out)) = false)
  /\
  (forall remote (w : World Context2.AuthState),
      let out := run remote Context2.checkUser w in
      fst out = Returned tt /\ Context2.loading (state (snd out)) = false).
Proof.
  split; intros remote w out; subst out.
  - unfold Legacy.checkUser. rewrite run_try_finally.
    match goal with
    | |- context [run remote (try_catch ?p ?h) w] =>
        destruct (try_catch_returns remote p h w) as [[] Ha];
          [intros e w'; exists tt; reflexivity |];
          destruct (run remote (try_catch p h) w) as [[[] | e] w1];
          [| discriminate Ha]
    end.
    split; reflexivity.
  - unfold Context2.checkUser. rewrite run_try_finally.
    match goal with
    | |- context [run remote (try_catch ?p ?h) w] =>
        destruct (try_catch_returns remote p h w) as [[] Ha];
          [intros e w'; exists tt; reflexivity |];
          destruct (run remote (try_catch p h) w) as [[[] | e] w1];
          [| discriminate Ha]
    end.
    split; reflexivity.
Qed.

(** ** The sign-up of src/context/AuthContext.tsx *)

(** X7: the [signup] of src/context/AuthContext.tsx does not inspect the
    answers of its inserts.  Once the identity is created and as long as no
    insert rejects, it returns normally and reports success, whatever errors
    the inserts answered with; it writes one row for a faculty member
    ([faculty]) and two for a student ([students], [users]) or a parent
    ([parents], [users]), and leaves [user] alone. *)
Theorem legacy_signup_unchecked_inserts
        (remote : Remote) (now_ms : string) (signupData : Legacy.SignupData)
        (r : Role) (u0 : User) (sess : option Session) (w : World Legacy.AuthState) :
  Legacy.role signupData = role_name r ->
  auth_signUp remote (Legacy.signup_email now_ms signupData)
              (Legacy.password signupData) None
  = Fulfilled {| ar_user := Some u0; ar_session := sess; ar_error := None |} ->
  (forall t row, exists a, insert remote t row = Fulfilled a) ->
  let out := run remote (Legacy.signup now_ms signupData) w in
  fst out = Returned tt
  /\ Legacy.toasts (state (snd out))
     = (Legacy.toasts (state w)
        ++ [Legacy.toast_success "Account created successfully!"])%list
  /\ Legacy.user (state (snd out)) = Legacy.user (state w)
  /\ tables_of (log (snd out))
     = (tables_of (log w)
        ++ match r with
           | Faculty => ["faculty"]
           | Student => ["students"; "users"]
           | Parent => ["parents"; "users"]
           end)%list.
Proof.
  intros Hrole Hid Hins out. subst out.
  unfold Legacy.signup. simpl. rewrite Hid. simpl. rewrite Hrole.
  destruct r; simpl;
    repeat match goal with
           | |- context [insert remote ?t ?row] =>
               let a := fresh "a" in
               let Ha := fresh "Ha" in
               destruct (Hins t row) as [a Ha]; rewrite Ha; simpl
           end;
    unfold update, issue, tables_of; simpl;
    rewrite !flat_map_app; simpl;
    rewrite <- ?app_assoc; simpl;
    repeat split; try reflexivity;
    now rewrite app_nil_r.
Qed.

(** A student sign-up while every insert is refused: both rows are
    attempted, success is reported, and the identity is created under the
    address derived from the roll number. *)
Lemma legacy_signup_ignores_insert_errors :
  let out := run school_insert_fails (Legacy.signup "1717228800000" student_form)
                 (world_of Legacy.initial) in
  fst out = Returned tt
  /\ Legacy.toasts (state (snd out))
     = [Legacy.toast_success "Account created successfully!"]
  /\ tables_of (log (snd out)) = ["students"; "users"]
  /\ hd_error (log (snd out))
     = Some (Req (AuthSignUp "STD-A-01@temp.com" "s3cret!pass" None)).
Proof.
  destruct (legacy_signup_unchecked_inserts school_insert_fails "1717228800000"
              student_form Student {| uid := "U9"; user_metadata := None |} None
              (world_of Legacy.initial) eq_refl eq_refl
              (fun t row => ex_intro _ {| w_error := Some duplicate_key |} eq_refl))
    as (Hout & Htoasts & _ & Htables).
  cbv zeta.
  split; [exact Hout | split; [exact Htoasts | split; [exact Htables | reflexivity]]].
Defined.

(** ** Profile fetches that overlap with later events *)

(** X18: a SIGNED_OUT event does not cancel a profile fetch in flight.  If
    the event arrives between the issue of the profile query and its answer,
    the answer is still written: the provider ends with [user] null and
    [profile] set to the signed-out user's profile. *)
Theorem sign_out_event_does_not_cancel_fetch
        (remote : Remote) (id : string) (fn : JsVal) (r : Role) (row : JsObj) :
  getSession remote
  = Fulfilled {| sr_session := session_of (user_with_role id fn r);
                 sr_error := None |} ->
  select remote (role_table r) id
  = Fulfilled {| q_data := Some row; q_error := None |} ->
  state (Sync.world
           (Sync.exec remote
              [Sync.Mount; Sync.Settle 0; Sync.Emit "SIGNED_OUT" None; Sync.Settle 0]
              Sync.before_mount))
  = {| Hooks.user := None;
       Hooks.profile := Some (Hooks.userProfile_of (JStr (role_name r)) row);
       Hooks.loading := false;
       Hooks.error := None |}.
Proof.
  intros Hs Hq.
  unfold Sync.exec. simpl. unfold Sync.spawn. simpl. rewrite Hs. simpl.
  destruct r; simpl in *; rewrite Hq; reflexivity.
Qed.

Lemma sign_out_event_does_not_cancel_fetch_witness :
  state (Sync.world
           (Sync.exec school
              [Sync.Mount; Sync.Settle 0; Sync.Emit "SIGNED_OUT" None; Sync.Settle 0]
              Sync.before_mount))
  = {| Hooks.user := None;
       Hooks.profile := Some asha_profile;
       Hooks.loading := false;
       Hooks.error := None |}.
Proof.
  exact (sign_out_event_does_not_cancel_fetch school "U1" (JStr "Asha") Student
           asha_row eq_refl eq_refl).
Defined.

(** X19: overlapping profile fetches are not ordered: the last one to
    resolve wins.  With no session at mount, SIGNED_IN for user A and then for
    user B starts two fetches.  If B's query resolves first and A's last, the
    provider ends with [user] = B and [profile] = A's profile, an
    authenticated snapshot that mixes two users; if they resolve in the order
    they were issued, the profile is B's. *)
Theorem overlapping_fetches_last_resolved_wins
        (remote : Remote)
        (idA idB : string) (fnA fnB : JsVal) (rA rB : Role) (rowA rowB : JsObj) :
  getSession remote = Fulfilled {| sr_session := None; sr_error := None |} ->
  select remote (role_table rA) idA
  = Fulfilled {| q_data := Some rowA; q_error := None |} ->
  select remote (role_table rB) idB
  = Fulfilled {| q_data := Some rowB; q_error := None |} ->
  let A := user_with_role idA fnA rA in
  let B := user_with_role idB fnB rB in
  let both_started :=
    [Sync.Mount; Sync.Settle 0;
     Sync.Emit "SIGNED_IN" (session_of A); Sync.Emit "SIGNED_IN" (session_of B)] in
  state (Sync.world
           (Sync.exec remote (both_started ++ [Sync.Settle 1; Sync.Settle 0])
                      Sync.before_mount))
  = {| Hooks.user := Some B;
       Hooks.profile := Some (Hooks.userProfile_of (JStr (role_name rA)) rowA);
       Hooks.loading := false;
       Hooks.error := None |}
  /\
  state (Sync.world
           (Sync.exec remote (both_started ++ [Sync.Settle 0; Sync.Settle 0])
                      Sync.before_mount))
  = {| Hooks.user := Some B;
       Hooks.profile := Some (Hooks.userProfile_of (JStr (role_name rB)) rowB);
       Hooks.loading := false;
       Hooks.error := None |}.
Proof.
  intros Hs HA HB A B both_started. subst A B both_started.
  unfold Sync.exec. simpl. unfold Sync.spawn. simpl. rewrite Hs. simpl.
  destruct rA, rB; simpl in *; rewrite ?HA, ?HB; simpl; rewrite ?HA, ?HB;
    split; reflexivity.
Qed.

(** Asha signs in, then Ravi; Ravi's profile query resolves first. *)
Lemma overlapping_fetches_last_resolved_wins_witness :
  let s := Sync.exec school_signed_out
             [Sync.Mount; Sync.Settle 0;
              Sync.Emit "SIGNED_IN" (session_of asha);
              Sync.Emit "SIGNED_IN" (session_of ravi);
              Sync.Settle 1; Sync.Settle 0]
             Sync.before_mount in
  Hooks.user (state (Sync.world s)) = Some ravi
  /\ Hooks.profile (state (Sync.world s)) = Some asha_profile
  /\ Hooks.AuthContextType.isAuthenticated (Hooks.value (state (Sync.world s))) = true.
Proof.
  destruct (overlapping_fetches_last_resolved_wins school_signed_out
              "U1" "U5" (JStr "Asha") (JStr "Ravi") Student Faculty
              asha_row ravi_row eq_refl eq_refl eq_refl) as [H _].
  cbv zeta.
  change (Sync.exec school_signed_out
            [Sync.Mount; Sync.Settle 0;
             Sync.Emit "SIGNED_IN" (session_of asha);
             Sync.Emit "SIGNED_IN" (session_of ravi);
             Sync.Settle 1; Sync.Settle 0] Sync.before_mount)
    with (Sync.exec school_signed_out
            ([Sync.Mount; Sync.Settle 0;
              Sync.Emit "SIGNED_IN" (session_of (user_with_role "U1" (JStr "Asha") Student));
              Sync.Emit "SIGNED_IN" (session_of (user_with_role "U5" (JStr "Ravi") Faculty))]
             ++ [Sync.Settle 1; Sync.Settle 0]) Sync.before_mount).
  rewrite H. repeat split.
Defined.

(** ** Events and the loading flag *)



(** ** Toasts of src/context/AuthContext.tsx *)

Lemma message_or_nonempty (msg fallback : string) :
  fallback <> "" -> Legacy.message_or msg fallback <> "".
Proof.
  intro Hf. unfold Legacy.message_or.
  destruct (msg =? "") eqn:E; [exact Hf |].
  now apply String.eqb_neq.
Qed.

Ltac one_toast :=
  simpl; eexists;
  split; [unfold update, issue; simpl; reflexivity |];
  split; [simpl; first [discriminate | apply message_or_nonempty; discriminate] |];
  simpl; split; intro; first [reflexivity | discriminate].

(** X21: each action of src/context/AuthContext.tsx shows exactly one toast,
    and its text is never empty (an error without a message gets a fixed
    text).  For [login] and [signup] the toast reports success exactly when
    the action returns instead of throwing; [logout] always returns, and its
    toast reports success exactly when the remote sign-out did not fail. *)
Theorem legacy_actions_toast_once :
  (forall remote email password role (w : World Legacy.AuthState),
      let out := run remote (Legacy.login email password role) w in
      exists t,
        Legacy.toasts (state (snd out)) = (Legacy.toasts (state w) ++ [t])%list
        /\ toast_text t <> ""
        /\ (is_success t = true <-> fst out = Returned tt))
  /\
  (forall remote now_ms signupData (w : World Legacy.AuthState),
      let out := run remote (Legacy.signup now_ms signupData) w in
      exists t,
        Legacy.toasts (state (snd out)) = (Legacy.toasts (state w) ++ [t])%list
        /\ toast_text t <> ""
        /\ (is_success t = true <-> fst out = Returned tt))
  /\
  (forall remote (w : World Legacy.AuthState),
      let out := run remote Legacy.logout w in
      fst out = Returned tt
      /\ exists t,
           Legacy.toasts (state (snd out)) = (Legacy.toasts (state w) ++ [t])%list
           /\ toast_text t <> ""
           /\ (is_success t = true <-> failure_of w_error (auth_signOut remote) = None)).
Proof.
  split; [| split].
  - intros remote email password role w out. subst out.
    unfold Legacy.login. simpl.
    destruct (signInWithPassword remote email password) as [[u sess [e |]] | e];
      one_toast.
  - intros remote now_ms signupData w out. subst out.
    unfold Legacy.signup. simpl.
    destruct (auth_signUp remote (Legacy.signup_email now_ms signupData)
                (Legacy.password signupData) None) as [[[u |] sess [e |]] | e];
      try one_toast.
    simpl.
    destruct (Legacy.role signupData =? "faculty").
    { simpl.
      match goal with
      | |- context [insert remote ?t ?row] => destruct (insert remote t row)
      end; one_toast. }
    destruct (Legacy.role signupData =? "student").
    { simpl.
      match goal with
      | |- context [insert remote "students" ?row] =>
          destruct (insert remote "students" row)
      end; try one_toast.
      simpl.
      match goal with
      | |- context [insert remote "users" ?row] =>
          destruct (insert remote "users" row)
      end; one_toast. }
    destruct (Legacy.role signupData =? "parent").
    { simpl.
      match goal with
      | |- context [insert remote "parents" ?row] =>
          destruct (insert remote "parents" row)
      end; try one_toast.
      simpl.
      match goal with
      | |- context [insert remote "users" ?row] =>
          destruct (insert remote "users" row)
      end; one_toast. }
    one_toast.
  - intros remote w out. subst out.
    unfold Legacy.logout. simpl.
    destruct (auth_signOut remote) as [[[e |]] | e]; simpl;
      (split; [reflexivity |]); one_toast.
Qed.

(** ** login and logout of src/unnamed/part_004 *)

(** X22: in src/unnamed/part_004, [login] issues the one credential check,
    never writes the provider's state, and throws exactly the error the
    service reports, if any; [logout] never throws, clears [user] when the
    remote sign-out succeeds, and otherwise leaves the state exactly as it
    was, so that nothing tells the caller that it failed. *)
Theorem context2_login_logout :
  (forall remote email password role (w : World Context2.AuthState),
      run remote (Context2.login email password role) w
      = (match failure_of ar_error (signInWithPassword remote email password) with
         | Some e => Thrown e
         | None => Returned tt
         end,
         issue (SignInWithPassword email password) w))
  /\
  (forall remote (w : World Context2.AuthState),
      let out := run remote Context2.logout w in
      fst out = Returned tt
      /\ log (snd out) = (log w ++ [Req AuthSignOut])%list
      /\ state (snd out)
         = match failure_of w_error (auth_signOut remote) with
           | Some _ => state w
           | None => {| Context2.user := None;
                        Context2.loading := Context2.loading (state w) |}
           end).
Proof.
  split.
  - intros remote email password role w. unfold Context2.login. simpl.
    destruct (signInWithPassword remote email password) as [[u sess [e |]] | e];
      reflexivity.
  - intros remote w out. subst out. unfold Context2.logout. simpl.
    destruct (auth_signOut remote) as [[[e |]] | e]; simpl; repeat split.
Qed.
